(** * Ahorify gamification engine: streaks, points, milestones and levels

    A shallow embedding of [core/services/gamification_service.py] together
    with the four store operations of [core/database.py] that it calls
    ([get_user_stats], [update_user_stats], [record_daily_engagement],
    [add_streak_milestone]).

    Conventions of the embedding:
    - Python [int] is [Z]; Python [str] is [string] (UTF-8 bytes);
    - a [datetime.date] is its (year, month, day) triple, with the ordinal
      arithmetic of CPython's [datetime] module written out;
    - the wall clock ([date.today()]) is an explicit argument [today] of
      every operation that reads it, one value per engagement call;
    - the SQLite store is explicit state; every store operation may raise
      [sqlite3.Error], driven by a fault schedule carried in the world, and
      a failed operation is rolled back (the store is left as it was);
    - [try ... except] is [try_catch]; logging has no effect on the state and
      is left out, as is the [timestamp] field of the result dictionaries;
    - the service object serves one [user_id], so the tables are projected on
      that user's rows;
    - the float arithmetic of the progress percentage is carried out in exact
      rationals ([Q]). *)

From Stdlib Require Import ZArith List String Ascii Bool Lia.
From Stdlib Require Import QArith Qround DecimalString.
Import ListNotations.

Open Scope string_scope.
Open Scope Z_scope.

(* ================================================================== *)
(** ** Python's calendar dates *)
(* ================================================================== *)

Module PyDate.

Record date := mkdate { year : Z; month : Z; day : Z }.

Definition is_leap (y : Z) : bool :=
  (y mod 4 =? 0) && (negb (y mod 100 =? 0) || (y mod 400 =? 0)).

Definition days_in_month (y m : Z) : Z :=
  if m =? 2 then (if is_leap y then 29 else 28)
  else if (m =? 4) || (m =? 6) || (m =? 9) || (m =? 11) then 30
  else 31.

(** Days of the year [y] that precede the first day of month [m]. *)
Definition days_before_month (y m : Z) : Z :=
  fold_left (fun acc k => acc + days_in_month y (Z.of_nat k))
            (seq 1 (Z.to_nat (m - 1))) 0.

(** Days before January 1st of year [y]. *)
Definition days_before_year (y : Z) : Z :=
  let y1 := y - 1 in
  y1 * 365 + y1 / 4 - y1 / 100 + y1 / 400.

(** [date.toordinal()]: 0001-01-01 is day 1. *)
Definition toordinal (d : date) : Z :=
  days_before_year (year d) + days_before_month (year d) (month d) + day d.

(** [(a - b).days] *)
Definition days_between (a b : date) : Z := toordinal a - toordinal b.

(** [date.weekday()]: Monday is 0, Sunday is 6. *)
Definition weekday (d : date) : Z := (toordinal d + 6) mod 7.

(** The range check of the [date] constructor. *)
Definition valid (d : date) : bool :=
  (1 <=? year d) && (year d <=? 9999) &&
  (1 <=? month d) && (month d <=? 12) &&
  (1 <=? day d) && (day d <=? days_in_month (year d) (month d)).

(** *** Text form *)

Definition digit_val (c : ascii) : option Z :=
  let n := Z.of_nat (nat_of_ascii c) in
  if (48 <=? n) && (n <=? 57) then Some (n - 48) else None.

Definition dec (z : Z) : string := NilZero.string_of_int (Z.to_int z).

Fixpoint zeros (n : nat) : string :=
  match n with O => "" | S k => String "0" (zeros k) end.

(** ["%0<w>d"] for a non-negative number. *)
Definition zero_pad (w : nat) (z : Z) : string :=
  let s := dec z in zeros (w - String.length s) ++ s.

(** [date.isoformat()], that is ["%04d-%02d-%02d"]. *)
Definition isoformat (d : date) : string :=
  zero_pad 4 (year d) ++ "-" ++ zero_pad 2 (month d) ++ "-" ++ zero_pad 2 (day d).

(** A field of one or two characters as the directives [%m] and [%d]
    accept it: [1-9], [0][1-9], or two digits within the bound; [%d] also
    accepts a blank followed by [1-9]. *)
Definition two_digit_field (blank_ok : bool) (hi : Z) (s : string) : option Z :=
  match s with
  | String a EmptyString =>
      match digit_val a with
      | Some v => if 1 <=? v then Some v else None
      | None => None
      end
  | String a (String b EmptyString) =>
      match digit_val a, digit_val b with
      | Some u, Some v =>
          let n := 10 * u + v in
          if (1 <=? n) && (n <=? hi) then Some n else None
      | None, Some v =>
          if blank_ok && Ascii.eqb a " " && (1 <=? v) then Some v else None
      | _, _ => None
      end
  | _ => None
  end.

(** Splits at the first ["-"]. *)
Fixpoint split_hyphen (s : string) : option (string * string) :=
  match s with
  | EmptyString => None
  | String c rest =>
      if Ascii.eqb c "-" then Some (EmptyString, rest)
      else match split_hyphen rest with
           | Some (l, r) => Some (String c l, r)
           | None => None
           end
  end.

(** [datetime.strptime(s, '%Y-%m-%d').date()], with [None] standing for the
    [ValueError] it raises: four digits, a hyphen, a month field, a hyphen,
    a day field and nothing else, naming a date that exists. *)
Definition strptime_ymd (s : string) : option date :=
  match s with
  | String y1 (String y2 (String y3 (String y4 (String h rest)))) =>
      match digit_val y1, digit_val y2, digit_val y3, digit_val y4 with
      | Some a, Some b, Some c, Some e =>
          if Ascii.eqb h "-" then
            match split_hyphen rest with
            | Some (ms, ds) =>
                match two_digit_field false 12 ms, two_digit_field true 31 ds with
                | Some m, Some d =>
                    let dt := mkdate (1000 * a + 100 * b + 10 * c + e) m d in
                    if valid dt then Some dt else None
                | _, _ => None
                end
            | None => None
            end
          else None
      | _, _, _, _ => None
      end
  | _ => None
  end.

End PyDate.

Import PyDate.

(* ================================================================== *)
(** ** The store ([core/database.py]) *)
(* ================================================================== *)

(** A row of table [user_stats]. *)
Record user_stats_row := mk_row {
  current_streak : Z;
  longest_streak : Z;
  total_points : Z;
  total_streak_days : Z;
  last_activity_date : option string;
  freeze_used_this_week : bool;
  recovery_used_this_month : bool
}.

(** A row of table [daily_engagement], keyed by [activity_date]. *)
Record engagement_row := mk_engagement {
  activity_date : string;
  actions_count : Z;
  actions_types : string
}.

Record database := mk_db {
  user_stats : option user_stats_row;
  streak_milestones : list Z;          (* the [milestone_days] recorded *)
  daily_engagement : list engagement_row
}.

(** The dictionary [stats_data] handed to [update_user_stats]. The service
    never sets the two protection keys to anything but [False], and the update
    reads them with [.get(key, False)]. *)
Record stats_data := mk_stats {
  sd_current_streak : Z;
  sd_longest_streak : Z;
  sd_total_points : Z;
  sd_total_streak_days : Z;
  sd_last_activity_date : option string
}.

(** The row the service creates for a new user
    ([_create_initial_user_stats], [_insert_initial_data]). *)
Definition initial_row : user_stats_row :=
  mk_row 0 0 0 0 None false false.

Definition initial_db : database := mk_db (Some initial_row) [] [].

(** *** Effects: store state, a fault schedule, exceptions *)

Inductive exn := Sqlite3Error.

Inductive outcome (A : Type) :=
| Ok (a : A)
| Raised (e : exn).
Arguments Ok {A} a.
Arguments Raised {A} e.

(** [faults] says, for the store operations to come and in order, which of
    them raise; past its end every operation succeeds. *)
Record world := mk_world {
  db : database;
  faults : list bool
}.

Definition M (A : Type) : Type := world -> outcome A * world.

Definition ret {A} (a : A) : M A := fun w => (Ok a, w).

Definition bind {A B} (m : M A) (k : A -> M B) : M B :=
  fun w => match m w with
           | (Ok a, w') => k a w'
           | (Raised e, w') => (Raised e, w')
           end.

Definition try_catch {A} (m : M A) (handler : exn -> M A) : M A :=
  fun w => match m w with
           | (Ok a, w') => (Ok a, w')
           | (Raised e, w') => handler e w'
           end.

Declare Scope py_scope.
Delimit Scope py_scope with py.
Notation "x <- c1 ;; c2" := (bind c1 (fun x => c2))
  (at level 100, c1 at next level, right associativity) : py_scope.
Notation "c1 ;;; c2" := (bind c1 (fun _ => c2))
  (at level 100, right associativity) : py_scope.
Open Scope py_scope.

(** One transaction on the store ([with self.get_connection() as conn]):
    it either raises and is rolled back, or commits the result of [f]. *)
Definition transaction {A} (f : database -> A * database) : M A :=
  fun w =>
    match faults w with
    | true :: rest => (Raised Sqlite3Error, mk_world (db w) rest)
    | false :: rest => let (a, d) := f (db w) in (Ok a, mk_world d rest)
    | [] => let (a, d) := f (db w) in (Ok a, mk_world d [])
    end.

(** [SELECT * FROM user_stats WHERE user_id = ?] *)
Definition get_user_stats : M (option user_stats_row) :=
  transaction (fun d => (user_stats d, d)).

(** [UPDATE user_stats SET ... WHERE user_id = ?]: changes the user's row
    when there is one, and nothing otherwise. *)
Definition update_user_stats (sd : stats_data) : M bool :=
  transaction (fun d =>
    (true,
     match user_stats d with
     | Some _ =>
         mk_db (Some (mk_row (sd_current_streak sd) (sd_longest_streak sd)
                             (sd_total_points sd) (sd_total_streak_days sd)
                             (sd_last_activity_date sd) false false))
               (streak_milestones d) (daily_engagement d)
     | None => d
     end)).

(** [INSERT ... ON CONFLICT(user_id, activity_date) DO UPDATE]: one row per
    day, counting the actions and appending their types. *)
Fixpoint upsert_engagement (day_text action_type : string)
         (rows : list engagement_row) : list engagement_row :=
  match rows with
  | [] => [mk_engagement day_text 1 action_type]
  | r :: rest =>
      if String.eqb (activity_date r) day_text
      then mk_engagement day_text (actions_count r + 1)
                         (actions_types r ++ "," ++ action_type) :: rest
      else r :: upsert_engagement day_text action_type rest
  end.

Definition record_daily_engagement (today : date) (action_type : string) : M bool :=
  transaction (fun d =>
    (true, mk_db (user_stats d) (streak_milestones d)
                 (upsert_engagement (isoformat today) action_type (daily_engagement d)))).

(** [INSERT OR REPLACE INTO streak_milestones]: the key is
    [(user_id, milestone_days)], so a recorded milestone is replaced. *)
Definition add_streak_milestone (milestone_days : Z) : M bool :=
  transaction (fun d =>
    (true, mk_db (user_stats d)
                 (milestone_days :: filter (fun m => negb (m =? milestone_days))
                                           (streak_milestones d))
                 (daily_engagement d))).

(* ================================================================== *)
(** ** The service ([core/services/gamification_service.py]) *)
(* ================================================================== *)

(** *** Python values met in the [metadata] dictionary *)

Inductive pyval :=
| PyNone
| PyBool (b : bool)
| PyInt (z : Z)
| PyStr (s : string).

(** Truth value of an object, as [if] tests it. *)
Definition truthy (v : pyval) : bool :=
  match v with
  | PyNone => false
  | PyBool b => b
  | PyInt z => negb (z =? 0)
  | PyStr s => negb (String.eqb s "")
  end.

Definition pydict := list (string * pyval).

(** [d.get(key, default)] *)
Fixpoint dict_get (d : pydict) (key : string) (default : pyval) : pyval :=
  match d with
  | [] => default
  | (k, v) :: rest => if String.eqb k key then v else dict_get rest key default
  end.

(** *** Configuration tables *)

Definition POINTS_CONFIG : list (string * Z) :=
  [ ("transaction_added", 10);
    ("dashboard_viewed", 5);
    ("goal_checked", 3);
    ("weekly_review_completed", 25);
    ("category_analysis_viewed", 15) ].

Record milestone_info := mk_milestone { m_points : Z; m_message : string }.

Definition STREAK_MILESTONES : list (Z * milestone_info) :=
  [ (3,  mk_milestone 25  "🌟 ¡3 días seguidos!");
    (7,  mk_milestone 50  "🚀 ¡1 semana completa!");
    (14, mk_milestone 100 "💫 ¡2 semanas!");
    (30, mk_milestone 250 "🏆 ¡1 MES!");
    (90, mk_milestone 500 "👑 ¡3 MESES!") ].

Record level_entry := mk_level { l_points : Z; l_name : string; l_badge : string }.

Definition LEVELS : list level_entry :=
  [ mk_level 0    "Recién Llegado 💰" "💰";
    mk_level 100  "Operador Junior 📈" "📈";
    mk_level 300  "Analista Senior 💼" "💼";
    mk_level 600  "Fund Manager 🏦" "🏦";
    mk_level 1000 "Tiburón de Wall Street 🦈" "🦈";
    mk_level 1500 "Magnate Financiero 💎" "💎";
    mk_level 2100 "Visionario Global 🌐" "🌐";
    mk_level 2800 "Leyenda Viva 🏆" "🏆";
    mk_level 3600 "Oráculo Financiero 🔮" "🔮";
    mk_level 4500 "Emperador del Capital 👑" "👑" ].

(** [POINTS_CONFIG.get(action_type, default)] *)
Fixpoint config_get (cfg : list (string * Z)) (key : string) (default : Z) : Z :=
  match cfg with
  | [] => default
  | (k, v) :: rest => if String.eqb k key then v else config_get rest key default
  end.

(** [action_type in POINTS_CONFIG] *)
Definition config_mem (cfg : list (string * Z)) (key : string) : bool :=
  existsb (fun kv => String.eqb (fst kv) key) cfg.

(** [LEVELS[i]]; the callers keep [i] within the table. *)
Definition level_at (i : Z) : level_entry :=
  nth (Z.to_nat i) LEVELS (mk_level 0 "" "").

Definition len_LEVELS : Z := Z.of_nat (List.length LEVELS).

(** *** Result dictionaries *)

Record streak_result := mk_streak_result {
  streak_updated : bool;
  sr_current_streak : Z;
  sr_message : string
}.

Record points_result := mk_points_result {
  pr_base_points : Z;
  pr_bonuses : Z;
  pr_total_points : Z
}.

Record milestone_result := mk_milestone_result {
  achieved : bool;
  milestone_days : option Z;
  mr_message : string;
  points_earned : Z
}.

Record level_result := mk_level_result {
  level_up : bool;
  current_level : Z;
  previous_level : Z;
  level_info : level_entry
}.

Record points_summary := mk_points_summary {
  ps_earned : Z;
  ps_base : Z;
  ps_bonuses : Z;
  ps_total : Z
}.

(** The dictionary [record_engagement] returns: ["success": True] with the
    consolidated parts, or ["success": False] with an error text. *)
Inductive engagement_result :=
| Success (action : string) (streak : streak_result) (points : points_summary)
          (milestone : milestone_result) (level : level_result)
| Failure (error : string).

Definition success (r : engagement_result) : bool :=
  match r with Success _ _ _ _ _ => true | Failure _ => false end.

(** *** Streaks *)

Definition _parse_date (today : date) (date_str : string) : date :=
  match strptime_ymd date_str with
  | Some d => d
  | None => today  (* fallback *)
  end.

Definition _start_new_streak (today : date) : M streak_result :=
  try_catch
    (update_user_stats (mk_stats 1 1 10 1 (Some (isoformat today))) ;;;
     ret (mk_streak_result true 1 "🎉 ¡Comienza tu racha financiera!"))
    (fun _ => ret (mk_streak_result false 0 "Error iniciando racha")).

Definition _increment_streak (us : user_stats_row) (today : date) : M streak_result :=
  try_catch
    (let new_streak := current_streak us + 1 in
     let longest := Z.max (longest_streak us) new_streak in
     let streak_bonus := 10 + Z.min new_streak 7 * 2 in
     update_user_stats
       (mk_stats new_streak longest (total_points us + streak_bonus)
                 (total_streak_days us + 1) (Some (isoformat today))) ;;;
     ret (mk_streak_result true new_streak
            ("🔥 ¡Racha de " ++ dec new_streak ++ " días! +"
               ++ dec streak_bonus ++ " puntos")))
    (fun _ => ret (mk_streak_result false (current_streak us)
                                    "Error actualizando racha")).

Definition _maintain_streak (us : user_stats_row) : M streak_result :=
  ret (mk_streak_result false (current_streak us)
                        "Racha mantenida - ya activo hoy").

Definition _handle_streak_break (us : user_stats_row) (today : date)
           (days_since_last : Z) : M streak_result :=
  try_catch
    (update_user_stats
       (mk_stats 0 (longest_streak us) (total_points us)
                 (total_streak_days us) (Some (isoformat today))) ;;;
     ret (mk_streak_result true 0
            ("💔 Racha rota después de " ++ dec days_since_last
               ++ " días de inactividad")))
    (fun _ => ret (mk_streak_result false 0 "Error actualizando racha")).

(** [not user_stats.get('last_activity_date')]: the date is missing or is the
    empty text. *)
Definition no_last_activity (us : user_stats_row) : bool :=
  match last_activity_date us with
  | None => true
  | Some s => String.eqb s ""
  end.

(** The stored text of the date, read once the test above has passed. *)
Definition last_activity_text (us : user_stats_row) : string :=
  match last_activity_date us with
  | Some s => s
  | None => ""
  end.

Definition _process_streak_update (today : date) : M streak_result :=
  user_stats <- get_user_stats ;;
  match user_stats with
  | None => _start_new_streak today
  | Some us =>
      if no_last_activity us then _start_new_streak today
      else
        let last_active := _parse_date today (last_activity_text us) in
        let days_since_last := days_between today last_active in
        if days_since_last =? 0 then _maintain_streak us
        else if days_since_last =? 1 then _increment_streak us today
        else _handle_streak_break us today days_since_last
  end.

(** *** Points *)

Definition _add_points (points : Z) : M unit :=
  try_catch
    (user_stats <- get_user_stats ;;
     match user_stats with
     | Some us =>
         update_user_stats
           (mk_stats (current_streak us) (longest_streak us)
                     (total_points us + points) (total_streak_days us)
                     (last_activity_date us)) ;;;
         ret tt
     | None => ret tt
     end)
    (fun _ => ret tt).

Definition _calculate_bonuses (metadata : option pydict) (today : date) : Z :=
  match metadata with
  | None => 0
  | Some [] => 0
  | Some md =>
      let bonuses := 0 in
      let bonuses :=
        if truthy (dict_get md "first_time" (PyBool false))
        then bonuses + 10 else bonuses in
      let bonuses :=
        if truthy (dict_get md "consistent_week" (PyBool false))
        then bonuses + 20 else bonuses in
      let bonuses :=
        if weekday today >=? 5 then bonuses + 5 else bonuses in
      bonuses
  end.

Definition _calculate_points (action_type : string) (metadata : option pydict)
           (today : date) : M points_result :=
  let base_points := config_get POINTS_CONFIG action_type 5 in
  let bonuses := _calculate_bonuses metadata today in
  let total := base_points + bonuses in
  _add_points total ;;;
  ret (mk_points_result base_points bonuses total).

(** *** Levels *)

(** The loop of [_calculate_level]: [i] is the index under test, [level] the
    last index whose threshold was met; the first unmet threshold ends it. *)
Fixpoint level_loop (levels : list level_entry) (i level points : Z) : Z :=
  match levels with
  | [] => level
  | level_info :: rest =>
      if points >=? l_points level_info
      then level_loop rest (i + 1) i points
      else level
  end.

Definition _calculate_level (points : Z) : Z := level_loop LEVELS 0 0 points.

Definition _get_previous_level (current_points : Z) : Z :=
  _calculate_level (Z.max 0 (current_points - 10)).

Definition _get_current_points : M Z :=
  try_catch
    (user_stats <- get_user_stats ;;
     ret (match user_stats with Some us => total_points us | None => 0 end))
    (fun _ => ret 0).

Definition _get_level_info (level : Z) : level_entry :=
  if (0 <=? level) && (level <? len_LEVELS) then level_at level
  else level_at 0.

Definition _check_level_progression : M level_result :=
  current_points <- _get_current_points ;;
  let current := _calculate_level current_points in
  let previous := _get_previous_level current_points in
  ret (mk_level_result (current >? previous) current previous
                       (_get_level_info current)).

(** *** Milestones *)

Definition no_milestone : milestone_result :=
  mk_milestone_result false None "" 0.

(** The [for ... in STREAK_MILESTONES.items()] loop: the first entry whose
    day count equals the streak is rewarded and ends the loop. *)
Fixpoint milestones_loop (table : list (Z * milestone_info)) (current_streak : Z)
  : M milestone_result :=
  match table with
  | [] => ret no_milestone
  | (days, info) :: rest =>
      if current_streak =? days then
        let points_earned := m_points info in
        _add_points points_earned ;;;
        try_catch (add_streak_milestone days ;;; ret tt) (fun _ => ret tt) ;;;
        ret (mk_milestone_result true (Some days) (m_message info) points_earned)
      else milestones_loop rest current_streak
  end.

Definition _check_milestones (current_streak : Z) : M milestone_result :=
  try_catch (milestones_loop STREAK_MILESTONES current_streak)
            (fun _ => ret no_milestone).

(** *** The entry point *)

Definition _is_valid_action (action_type : string) : bool :=
  config_mem POINTS_CONFIG action_type || String.prefix "custom_" action_type.

Definition _consolidate_results (action_type : string) (sr : streak_result)
           (pr : points_result) (mr : milestone_result) (lr : level_result)
  : M engagement_result :=
  total <- _get_current_points ;;
  ret (Success action_type sr
         (mk_points_summary (pr_total_points pr) (pr_base_points pr)
                            (pr_bonuses pr) total)
         mr lr).

Definition _error_response (message : string) : engagement_result :=
  Failure message.

Definition record_engagement (action_type : string) (metadata : option pydict)
           (today : date) : M engagement_result :=
  try_catch
    (if negb (_is_valid_action action_type)
     then ret (_error_response ("Acción no válida: " ++ action_type))
     else
       record_daily_engagement today action_type ;;;
       streak_result <- _process_streak_update today ;;
       points_result <- _calculate_points action_type metadata today ;;
       milestone_result <- _check_milestones (sr_current_streak streak_result) ;;
       level_result <- _check_level_progression ;;
       _consolidate_results action_type streak_result points_result
                            milestone_result level_result)
    (fun _ => ret (_error_response "Error procesando engagement")).

(** *** The progress snapshot *)


(** [min(a, b)] and [max(a, b)] of Python: the first argument unless the
    second is strictly smaller (resp. larger). *)
Definition py_min (a b : Q) : Q := if Qle_bool a b then a else b.
Definition py_max (a b : Q) : Q := if Qle_bool b a then a else b.

(** [round(x, 1)] on the exact value: the nearest multiple of one tenth, ties
    to the even one. *)
Definition round1 (x : Q) : Q :=
  let t := (x * 10)%Q in
  let n := Qfloor t in
  let twice_frac := ((t - inject_Z n) * 2)%Q in     (* in [0, 2) *)
  let up :=
    match Qcompare twice_frac 1 with
    | Lt => false
    | Gt => true
    | Eq => Z.odd n
    end in
  ((if up then n + 1 else n)%Z # 10)%Q.

(** The percentage of [get_user_progress] before it is rounded. *)
Definition progress_percentage (current_points : Z) : Q :=
  let current_level := _calculate_level current_points in
  let next_level_index := current_level in
  let next_level_points :=
    if next_level_index <? len_LEVELS - 1
    then l_points (level_at (next_level_index + 1))
    else l_points (level_at next_level_index) in
  let current_level_points := l_points (level_at current_level) in
  let points_in_current_level := current_points - current_level_points in
  let points_needed_for_next := next_level_points - current_level_points in
  let pct :=
    if points_needed_for_next >? 0
    then (inject_Z points_in_current_level / inject_Z points_needed_for_next * 100)%Q
    else 100%Q in
  py_max 0 (py_min 100 pct).



(** *** Running the service *)

(** A call of [record_engagement]: its action, metadata, the day it is made
    on and the faults the store meets during it. *)
Record call := mk_call {
  c_action : string;
  c_metadata : option pydict;
  c_today : date;
  c_faults : list bool
}.

Definition run_call (c : call) (d : database) : outcome engagement_result * world :=
  record_engagement (c_action c) (c_metadata c) (c_today c)
                    (mk_world d (c_faults c)).

(** The store a call leaves behind. *)
Definition db_after (c : call) (d : database) : database :=
  db (snd (run_call c d)).

(** The store after a sequence of calls, oldest first. *)
Definition db_after_calls (cs : list call) (d : database) : database :=
  fold_left (fun d c => db_after c d) cs d.

(** The stores the service can bring about from a new user's store. *)
Inductive reachable : database -> Prop :=
| reachable_initial : reachable initial_db
| reachable_call : forall d c, reachable d -> reachable (db_after c d).

(** A call during which the store never fails. *)
Definition fault_free (c : call) : bool :=
  forallb negb (c_faults c).

(* ================================================================== *)
(** ** Reasoning about effects *)
(* ================================================================== *)

(** [hoare P m Q]: run from a store satisfying [P], whatever the fault
    schedule, [m] ends with an outcome and a store related by [Q]. *)
Definition hoare {A} (P : database -> Prop) (m : M A)
           (Q : outcome A -> database -> Prop) : Prop :=
  forall w, P (db w) -> Q (fst (m w)) (db (snd (m w))).

(** [effect m R]: [R] relates the store before, the outcome and the store
    after every run of [m]. *)
Definition effect {A} (m : M A)
           (R : database -> outcome A -> database -> Prop) : Prop :=
  forall w, R (db w) (fst (m w)) (db (snd (m w))).

(** The store an [UPDATE user_stats] leaves when it commits. *)
Definition write_stats (sd : stats_data) (d : database) : database :=
  match user_stats d with
  | Some _ =>
      mk_db (Some (mk_row (sd_current_streak sd) (sd_longest_streak sd)
                          (sd_total_points sd) (sd_total_streak_days sd)
                          (sd_last_activity_date sd) false false))
            (streak_milestones d) (daily_engagement d)
  | None => d
  end.

(** The [stats_data] that [_add_points] builds from the row it read. *)
Definition with_points (us : user_stats_row) (points : Z) : stats_data :=
  mk_stats (current_streak us) (longest_streak us) (total_points us + points)
           (total_streak_days us) (last_activity_date us).

Definition start_stats (today : date) : stats_data :=
  mk_stats 1 1 10 1 (Some (isoformat today)).

Definition increment_stats (us : user_stats_row) (today : date) : stats_data :=
  mk_stats (current_streak us + 1)
           (Z.max (longest_streak us) (current_streak us + 1))
           (total_points us + (10 + Z.min (current_streak us + 1) 7 * 2))
           (total_streak_days us + 1) (Some (isoformat today)).

Definition break_stats (us : user_stats_row) (today : date) : stats_data :=
  mk_stats 0 (longest_streak us) (total_points us) (total_streak_days us)
           (Some (isoformat today)).

Definition maintain_result (us : user_stats_row) : streak_result :=
  mk_streak_result false (current_streak us) "Racha mantenida - ya activo hoy".

(** What a guarded [UPDATE] does: it commits [sd] and answers [r], or fails,
    leaves the store alone and answers [r']. *)
Definition guarded_write (sd : stats_data) (r r' : streak_result)
           (d : database) (o : outcome streak_result) (d' : database) : Prop :=
  (o = Ok r' /\ d' = d) \/ (o = Ok r /\ d' = write_stats sd d).

Definition start_effect (today : date) :=
  guarded_write (start_stats today)
    (mk_streak_result true 1 "🎉 ¡Comienza tu racha financiera!")
    (mk_streak_result false 0 "Error iniciando racha").

Definition increment_effect (us : user_stats_row) (today : date) :=
  guarded_write (increment_stats us today)
    (mk_streak_result true (current_streak us + 1)
       ("🔥 ¡Racha de " ++ dec (current_streak us + 1) ++ " días! +"
          ++ dec (10 + Z.min (current_streak us + 1) 7 * 2) ++ " puntos"))
    (mk_streak_result false (current_streak us) "Error actualizando racha").

Definition break_effect (us : user_stats_row) (today : date) (n : Z) :=
  guarded_write (break_stats us today)
    (mk_streak_result true 0
       ("💔 Racha rota después de " ++ dec n ++ " días de inactividad"))
    (mk_streak_result false 0 "Error actualizando racha").

(** The day difference the evaluator computes for a row that has a date. *)
Definition days_since_last (today : date) (us : user_stats_row) : Z :=
  days_between today (_parse_date today (last_activity_text us)).

(** The transition of [_process_streak_update] once the row has been read. *)
Definition streak_effect (today : date) (d : database)
           (o : outcome streak_result) (d' : database) : Prop :=
  match user_stats d with
  | None => start_effect today d o d'
  | Some us =>
      if no_last_activity us then start_effect today d o d'
      else if days_since_last today us =? 0
           then o = Ok (maintain_result us) /\ d' = d
           else if days_since_last today us =? 1
                then increment_effect us today d o d'
                else break_effect us today (days_since_last today us) d o d'
  end.

Definition max_level : Z := len_LEVELS - 1.

(** A metadata flag as [_calculate_bonuses] reads it. *)
Definition flag (metadata : option pydict) (key : string) : bool :=
  match metadata with
  | Some md => truthy (dict_get md key (PyBool false))
  | None => false
  end.

(** [if metadata:] — a dictionary with at least one entry. *)
Definition has_entries (metadata : option pydict) : bool :=
  match metadata with
  | Some (_ :: _) => true
  | _ => false
  end.

Definition is_weekend (today : date) : bool := weekday today >=? 5.

(** The entry of the milestone table that a streak of [c] days selects: the
    first one whose day count equals [c]. *)
Definition lookup_milestone (table : list (Z * milestone_info)) (c : Z)
  : option (Z * milestone_info) :=
  find (fun entry => c =? fst entry) table.

(** The result of a milestone that fired. *)
Definition fired (days : Z) (info : milestone_info) : milestone_result :=
  mk_milestone_result true (Some days) (m_message info) (m_points info).

(** The store after a reward was paid and recorded without a fault. *)
Definition rewarded (us : user_stats_row) (days points : Z) (d : database)
  : database :=
  mk_db (Some (mk_row (current_streak us) (longest_streak us)
                      (total_points us + points) (total_streak_days us)
                      (last_activity_date us) false false))
        (days :: filter (fun m => negb (m =? days)) (streak_milestones d))
        (daily_engagement d).

(** *** What a call can do to the store

    Every write the service makes is one of six changes; the guards are the
    tests of [_process_streak_update] on the row it read. *)
Inductive store_change (today : date) (d : database) : database -> Prop :=
| change_ledger : forall rows,
    store_change today d (mk_db (user_stats d) (streak_milestones d) rows)
| change_milestones : forall ms,
    store_change today d (mk_db (user_stats d) ms (daily_engagement d))
| change_points : forall us n,
    user_stats d = Some us -> 0 <= n ->
    store_change today d (write_stats (with_points us n) d)
| change_start :
    (forall us, user_stats d = Some us -> no_last_activity us = true) ->
    store_change today d (write_stats (start_stats today) d)
| change_increment : forall us,
    user_stats d = Some us -> no_last_activity us = false ->
    days_since_last today us = 1 ->
    store_change today d (write_stats (increment_stats us today) d)
| change_break : forall us,
    user_stats d = Some us -> no_last_activity us = false ->
    days_since_last today us <> 0 -> days_since_last today us <> 1 ->
    store_change today d (write_stats (break_stats us today) d).

Inductive changes (today : date) (d : database) : database -> Prop :=
| changes_none : changes today d d
| changes_more : forall d1 d2,
    changes today d d1 -> store_change today d1 d2 -> changes today d d2.

(** [steady today m]: whatever the faults, [m] only makes such changes. *)
Definition steady (today : date) {A} (m : M A) : Prop :=
  forall d0, hoare (changes today d0) m (fun _ d => changes today d0 d).

(** The streak never exceeds the longest streak, and is never negative. *)
Definition streak_inv (d : database) : Prop :=
  forall us, user_stats d = Some us ->
             0 <= current_streak us <= longest_streak us.

(** As long as no date is stored, no streak has been counted. *)
Definition undated_inv (d : database) : Prop :=
  forall us, user_stats d = Some us -> no_last_activity us = true ->
             current_streak us = 0 /\ longest_streak us = 0 /\
             total_streak_days us = 0.

(** The store holds a row with the streak fields of [us]. *)
Definition same_streak (us : user_stats_row) (d : database) : Prop :=
  exists us', user_stats d = Some us' /\
              current_streak us' = current_streak us /\
              longest_streak us' = longest_streak us /\
              total_streak_days us' = total_streak_days us /\
              last_activity_date us' = last_activity_date us.

(** The stored totals, 0 when there is no row. *)
Definition stored_points (d : database) : Z :=
  match user_stats d with Some us => total_points us | None => 0 end.

Definition stored_streak_days (d : database) : Z :=
  match user_stats d with Some us => total_streak_days us | None => 0 end.

(** The world after step 2 has logged the action in the daily ledger. *)
Definition after_ledger (today : date) (action : string) (w : world) : world :=
  mk_world (mk_db (user_stats (db w)) (streak_milestones (db w))
                  (upsert_engagement (isoformat today) action
                                     (daily_engagement (db w))))
           (tl (faults w)).

(** The fault schedules that make a call answer with an error: the ledger
    write of step 2 fails, or the read that opens step 3 does. *)
Definition fails_early (fl : list bool) : Prop :=
  (exists rest, fl = true :: rest) \/ (exists rest, fl = false :: true :: rest).

(** A world whose fault schedule holds no fault. *)
Definition calm (w : world) : Prop := forallb negb (faults w) = true.

(** [clean P m Q]: on a store satisfying [P] that does not fail, [m] answers
    with a value and a store related by [Q], and meets no fault. *)
Definition clean {A} (P : database -> Prop) (m : M A)
           (Q : A -> database -> Prop) : Prop :=
  forall w, calm w -> P (db w) ->
            exists a w', m w = (Ok a, w') /\ calm w' /\ Q a (db w').

(** A row with a streak that is not negative and, as long as it has no date,
    no more points than a Start writes. *)
Definition settled (d : database) : Prop :=
  forall us, user_stats d = Some us ->
             0 <= current_streak us /\
             (no_last_activity us = true -> total_points us <= 10).

(** A row with a streak that is not negative and a date. *)
Definition dated (d : database) : Prop :=
  forall us, user_stats d = Some us ->
             0 <= current_streak us /\ no_last_activity us = false.

(** The store still holds at least [p0] points, on a settled (resp. dated)
    row. *)
Definition keeps_settled (p0 : Z) (d : database) : Prop :=
  settled d /\ p0 <= stored_points d.

Definition keeps_dated (p0 : Z) (d : database) : Prop :=
  dated d /\ p0 <= stored_points d.


(** Reads the row that a committed [UPDATE] wrote over an existing one. *)
Ltac written_row Hus Hus' :=
  unfold write_stats in Hus'; rewrite Hus in Hus'; cbn [user_stats] in Hus';
  injection Hus' as <-; cbn.

(** *** Start-up of the service *)

Definition raise {A} (e : exn) : M A := fun w => (Raised e, w).

Definition _create_initial_user_stats : M unit :=
  update_user_stats (mk_stats 0 0 0 0 None) ;;;
  ret tt.

(** [_ensure_user_initialized]: the handler logs and raises again. *)
Definition _ensure_user_initialized : M unit :=
  try_catch
    (user_stats <- get_user_stats ;;
     match user_stats with
     | None => _create_initial_user_stats
     | Some _ => ret tt
     end)
    (fun e => raise e).

Definition _check_streak_protection (us : user_stats_row) : bool :=
  negb (freeze_used_this_week us).

(** The stored longest streak, 0 when there is no row. *)
Definition stored_longest (d : database) : Z :=
  match user_stats d with Some us => longest_streak us | None => 0 end.

(** The stored streak, 0 when there is no row. *)
Definition stored_streak (d : database) : Z :=
  match user_stats d with Some us => current_streak us | None => 0 end.

(** What the [CHECK] constraints of table [user_stats] ask of a row, and
    that no more days are counted in the longest streak than in total. *)
Definition counters_inv (d : database) : Prop :=
  forall us, user_stats d = Some us ->
             0 <= current_streak us <= longest_streak us /\
             0 <= total_points us /\
             longest_streak us <= total_streak_days us.

(** Both streak protections are available. *)
Definition protections_reset (d : database) : Prop :=
  forall us, user_stats d = Some us ->
             freeze_used_this_week us = false /\
             recovery_used_this_month us = false.

(** As [written_row], leaving the arithmetic of the written values alone. *)
Ltac written_counters Hus Hus' :=
  unfold write_stats in Hus'; rewrite Hus in Hus';
  change (user_stats (mk_db ?r _ _)) with r in Hus';
  apply (f_equal (fun o => match o with Some r => r | None => initial_row end))
    in Hus';
  subst;
  cbn [current_streak longest_streak total_points total_streak_days
       last_activity_date freeze_used_this_week recovery_used_this_month
       sd_current_streak sd_longest_streak sd_total_points sd_total_streak_days
       sd_last_activity_date with_points start_stats increment_stats break_stats].

(** *** Reading a written date back *)

(** A text of exactly four decimal digits, as [%Y] reads it. *)
Definition four_digits (s : string) : option Z :=
  match s with
  | String a (String b (String c (String e EmptyString))) =>
      match digit_val a, digit_val b, digit_val c, digit_val e with
      | Some va, Some vb, Some vc, Some ve =>
          Some (1000 * va + 100 * vb + 10 * vc + ve)
      | _, _, _, _ => None
      end
  | _ => None
  end.

Fixpoint no_hyphen (s : string) : bool :=
  match s with
  | EmptyString => true
  | String c rest => negb (Ascii.eqb c "-") && no_hyphen rest
  end.

Definition option_is (o : option Z) (v : Z) : bool :=
  match o with Some x => x =? v | None => false end.

(** The written year, month and day fields are read back as written. *)
Definition year_field_ok (y : Z) : bool :=
  option_is (four_digits (zero_pad 4 y)) y.

Definition month_field_ok (m : Z) : bool :=
  no_hyphen (zero_pad 2 m) && option_is (two_digit_field false 12 (zero_pad 2 m)) m.

Definition day_field_ok (dd : Z) : bool :=
  option_is (two_digit_field true 31 (zero_pad 2 dd)) dd.

(** *** The streak step in closed form

    What [_process_streak_update] answers, the row it leaves and the store
    it leaves, when the row [us] was found and the store does not fail. *)
Definition stepped_result (today : date) (us : user_stats_row) : streak_result :=
  if no_last_activity us
  then mk_streak_result true 1 "🎉 ¡Comienza tu racha financiera!"
  else if days_since_last today us =? 0 then maintain_result us
  else if days_since_last today us =? 1
       then mk_streak_result true (current_streak us + 1)
              ("🔥 ¡Racha de " ++ dec (current_streak us + 1) ++ " días! +"
                 ++ dec (10 + Z.min (current_streak us + 1) 7 * 2) ++ " puntos")
       else mk_streak_result true 0
              ("💔 Racha rota después de " ++ dec (days_since_last today us)
                 ++ " días de inactividad").

Definition stepped_db (today : date) (us : user_stats_row) (d : database)
  : database :=
  if no_last_activity us then write_stats (start_stats today) d
  else if days_since_last today us =? 0 then d
  else if days_since_last today us =? 1
       then write_stats (increment_stats us today) d
       else write_stats (break_stats us today) d.

Definition stepped_row (today : date) (us : user_stats_row) : user_stats_row :=
  if no_last_activity us
  then mk_row 1 1 10 1 (Some (isoformat today)) false false
  else if days_since_last today us =? 0 then us
  else if days_since_last today us =? 1
       then mk_row (current_streak us + 1)
                   (Z.max (longest_streak us) (current_streak us + 1))
                   (total_points us + (10 + Z.min (current_streak us + 1) 7 * 2))
                   (total_streak_days us + 1) (Some (isoformat today)) false false
       else mk_row 0 (longest_streak us) (total_points us)
                   (total_streak_days us) (Some (isoformat today)) false false.

(** The bonus of the milestone that a streak of [c] days selects, if any. *)
Definition milestone_points (c : Z) : Z :=
  match lookup_milestone STREAK_MILESTONES c with
  | Some (_, info) => m_points info
  | None => 0
  end.

(** The points of the action itself. *)
Definition action_points (action : string) (metadata : option pydict)
           (today : date) : Z :=
  config_get POINTS_CONFIG action 5 + _calculate_bonuses metadata today.

(** The row a call leaves when the row [us] was found, the action is valid
    and the store does not fail. *)
Definition row_after_call (c : call) (us : user_stats_row) : user_stats_row :=
  let r := stepped_row (c_today c) us in
  mk_row (current_streak r) (longest_streak r)
         (total_points r + action_points (c_action c) (c_metadata c) (c_today c)
          + milestone_points (current_streak r))
         (total_streak_days r) (last_activity_date r) false false.

(** The stored date is absent or can be read. *)
Definition date_readable (us : user_stats_row) : Prop :=
  no_last_activity us = true \/
  exists s last, last_activity_date us = Some s /\ strptime_ymd s = Some last.

(** *** The ledger and the milestone records

    The writes of a call, told apart by the table they touch: the user's
    row, one more action in the daily ledger, one configured milestone
    recorded. *)
Inductive table_write (d : database) : database -> Prop :=
| write_row : forall r,
    table_write d (mk_db r (streak_milestones d) (daily_engagement d))
| write_ledger : forall day action,
    table_write d (mk_db (user_stats d) (streak_milestones d)
                         (upsert_engagement (isoformat day) action
                                            (daily_engagement d)))
| write_milestone : forall days info,
    In (days, info) STREAK_MILESTONES ->
    table_write d (mk_db (user_stats d)
                         (days :: filter (fun m => negb (m =? days))
                                         (streak_milestones d))
                         (daily_engagement d)).

Inductive table_writes (d : database) : database -> Prop :=
| table_writes_none : table_writes d d
| table_writes_more : forall d1 d2,
    table_writes d d1 -> table_write d1 d2 -> table_writes d d2.

(** [tracked m]: whatever the faults, [m] only makes such writes. *)
Definition tracked {A} (m : M A) : Prop :=
  forall d0, hoare (table_writes d0) m (fun _ d => table_writes d0 d).

(** The number of actions the ledger holds for a day: the count of the
    first row with that date, which is the row an upsert updates. *)
Definition ledger_count (day_text : string) (rows : list engagement_row) : Z :=
  match find (fun r => String.eqb (activity_date r) day_text) rows with
  | Some r => actions_count r
  | None => 0
  end.

(** One row per day, each counting at least one action. *)
Definition ledger_inv (d : database) : Prop :=
  NoDup (map activity_date (daily_engagement d)) /\
  Forall (fun r => 1 <= actions_count r) (daily_engagement d).

(** Every recorded milestone is a configured one, recorded once. *)
Definition milestones_inv (d : database) : Prop :=
  NoDup (streak_milestones d) /\
  Forall (fun m => In m [3; 7; 14; 30; 90]) (streak_milestones d).

(** *** Suggested categories ([core/services/transaction_service.py]) *)

Definition DEFAULT_CATEGORIES : list string :=
  [ "🍔 Comida"; "🚗 Transporte"; "🎮 Ocio"; "🏠 Vivienda";
    "👗 Ropa"; "💊 Salud"; "📚 Educación"; "✈️ Viajes";
    "🎁 Regalos"; "📱 Tecnología"; "💡 Servicios"; "💰 Ahorros";
    "💼 Ingresos"; "❓ Otros" ].

(** [list(dict.fromkeys(l))]: the first occurrence of every element, in
    order; [seen] holds the keys met so far. *)
Fixpoint fromkeys (seen l : list string) : list string :=
  match l with
  | [] => []
  | x :: rest =>
      if existsb (String.eqb x) seen then fromkeys seen rest
      else x :: fromkeys (x :: seen) rest
  end.

(** [get_suggested_categories], from the categories that
    [db.get_user_categories] returned. *)
Definition get_suggested_categories (user_categories : list string)
  : list string :=
  let all_categories := fromkeys [] (user_categories ++ DEFAULT_CATEGORIES)%list in
  firstn 15 all_categories.

Lemma bind_ok {A B} (m : M A) (k : A -> M B) (w : world) (a : A) :
  fst (m w) = Ok a -> bind m k w = k a (snd (m w)).
Proof. unfold bind. destruct (m w) as [o w1]; cbn. intros ->. reflexivity. Qed.

Lemma bind_raised {A B} (m : M A) (k : A -> M B) (w : world) (e : exn) :
  fst (m w) = Raised e -> bind m k w = (Raised e, snd (m w)).
Proof. unfold bind. destruct (m w) as [o w1]; cbn. intros ->. reflexivity. Qed.

Lemma bind_eq {A B} (m : M A) (k : A -> M B) (w w1 : world) (a : A) :
  m w = (Ok a, w1) -> bind m k w = k a w1.
Proof. unfold bind. intros ->. reflexivity. Qed.

Lemma bind_raised_eq {A B} (m : M A) (k : A -> M B) (w w1 : world) (e : exn) :
  m w = (Raised e, w1) -> bind m k w = (Raised e, w1).
Proof. unfold bind. intros ->. reflexivity. Qed.

Lemma hoare_ret {A} (P : database -> Prop) (a : A) (Q : outcome A -> database -> Prop) :
  (forall d, P d -> Q (Ok a) d) -> hoare P (ret a) Q.
Proof. intros H w Hw. apply H, Hw. Qed.

Lemma hoare_bind {A B} (P : database -> Prop) (m : M A) (k : A -> M B)
      (Q : outcome A -> database -> Prop) (R : outcome B -> database -> Prop) :
  hoare P m Q ->
  (forall a, hoare (Q (Ok a)) (k a) R) ->
  (forall e d, Q (Raised e) d -> R (Raised e) d) ->
  hoare P (bind m k) R.
Proof.
  intros Hm Hk He w Hw. specialize (Hm w Hw). unfold bind.
  destruct (m w) as [[a | e] w1]; cbn in *.
  - apply Hk, Hm.
  - apply He, Hm.
Qed.

Lemma hoare_try_catch {A} (P : database -> Prop) (m : M A) (h : exn -> M A)
      (Q R : outcome A -> database -> Prop) :
  hoare P m Q ->
  (forall a d, Q (Ok a) d -> R (Ok a) d) ->
  (forall e, hoare (Q (Raised e)) (h e) R) ->
  hoare P (try_catch m h) R.
Proof.
  intros Hm Hok Hh w Hw. specialize (Hm w Hw). unfold try_catch.
  destruct (m w) as [[a | e] w1]; cbn in *.
  - apply Hok, Hm.
  - apply Hh, Hm.
Qed.

Lemma hoare_consequence {A} (P P' : database -> Prop) (m : M A)
      (Q Q' : outcome A -> database -> Prop) :
  hoare P' m Q' ->
  (forall d, P d -> P' d) ->
  (forall o d, Q' o d -> Q o d) ->
  hoare P m Q.
Proof. intros Hm Hp Hq w Hw. apply Hq, Hm, Hp, Hw. Qed.

Lemma effect_hoare {A} (m : M A) (R : database -> outcome A -> database -> Prop)
      (P : database -> Prop) (Q : outcome A -> database -> Prop) :
  effect m R ->
  (forall d o d', P d -> R d o d' -> Q o d') ->
  hoare P m Q.
Proof. intros Hm H w Hw. exact (H _ _ _ Hw (Hm w)). Qed.

(** A transaction raises and leaves the store alone, or commits. *)
Lemma transaction_effect {A} (f : database -> A * database) :
  effect (transaction f)
         (fun d o d' =>
            (o = Raised Sqlite3Error /\ d' = d) \/
            (o = Ok (fst (f d)) /\ d' = snd (f d))).
Proof.
  intros w. unfold transaction.
  destruct (faults w) as [| [|] rest]; destruct (f (db w)); cbn; auto.
Qed.

(** Without faults a transaction commits, and no fault appears. *)
Lemma transaction_fault_free {A} (f : database -> A * database) (d : database) :
  transaction f (mk_world d []) = (Ok (fst (f d)), mk_world (snd (f d)) []).
Proof. unfold transaction; cbn. destruct (f d); reflexivity. Qed.

Lemma get_user_stats_effect :
  effect get_user_stats
         (fun d o d' => d' = d /\ (o = Raised Sqlite3Error \/ o = Ok (user_stats d))).
Proof.
  intros w. destruct (transaction_effect (fun d => (user_stats d, d)) w)
    as [[Ho Hd] | [Ho Hd]]; unfold get_user_stats; rewrite Ho, Hd; cbn; auto.
Qed.

Lemma update_user_stats_effect (sd : stats_data) :
  effect (update_user_stats sd)
         (fun d o d' =>
            (o = Raised Sqlite3Error /\ d' = d) \/
            (o = Ok true /\ d' = write_stats sd d)).
Proof.
  intros w. unfold update_user_stats.
  match goal with |- context [transaction ?f] =>
    destruct (transaction_effect f w) as [[Ho Hd] | [Ho Hd]] end;
    rewrite Ho, Hd; cbn; auto.
Qed.

(** [_add_points] never raises; it leaves the store alone (no row, or a
    failed read or write) or adds the points to the row it read. *)
Lemma _add_points_effect (points : Z) :
  effect (_add_points points)
         (fun d o d' =>
            o = Ok tt /\
            (d' = d \/
             exists us, user_stats d = Some us /\
                        d' = write_stats (with_points us points) d)).
Proof.
  intros w. unfold _add_points, try_catch, bind.
  pose proof (get_user_stats_effect w) as Hg.
  destruct (get_user_stats w) as [[[us |] | e] w1]; cbn in *.
  - destruct Hg as [Hd [Ho | Ho]]; [discriminate |].
    injection Ho as Hus.
    pose proof (update_user_stats_effect (with_points us points) w1) as Hu.
    fold (with_points us points).
    destruct (update_user_stats (with_points us points) w1) as [[b | e] w2]; cbn in *.
    + split; [reflexivity |].
      destruct Hu as [[Ho _] | [_ Hd2]]; [discriminate |].
      right. exists us. rewrite Hd2, Hd. auto.
    + split; [reflexivity |].
      destruct Hu as [[_ Hd2] | [Ho _]]; [| discriminate].
      left. congruence.
  - split; [reflexivity |]. left. apply Hg.
  - split; [reflexivity |]. left. apply Hg.
Qed.

Lemma _add_points_fault_free (points : Z) (d : database) (us : user_stats_row) :
  user_stats d = Some us ->
  _add_points points (mk_world d []) =
  (Ok tt, mk_world (write_stats (with_points us points) d) []).
Proof.
  intros Hus. unfold _add_points, try_catch, bind, get_user_stats, update_user_stats.
  rewrite transaction_fault_free. cbn [fst snd]. rewrite Hus.
  rewrite transaction_fault_free. reflexivity.
Qed.

Lemma record_milestone_fault_free (days : Z) (d : database) :
  try_catch (add_streak_milestone days ;;; ret tt) (fun _ => ret tt) (mk_world d []) =
  (Ok tt,
   mk_world (mk_db (user_stats d)
                   (days :: filter (fun m => negb (m =? days)) (streak_milestones d))
                   (daily_engagement d)) []).
Proof.
  unfold try_catch, bind, add_streak_milestone.
  rewrite transaction_fault_free. reflexivity.
Qed.

Lemma guarded_update_effect (sd : stats_data) (r r' : streak_result) :
  effect (try_catch (update_user_stats sd ;;; ret r) (fun _ => ret r'))
         (guarded_write sd r r').
Proof.
  intros w. unfold try_catch, bind, guarded_write.
  pose proof (update_user_stats_effect sd w) as Hu.
  destruct (update_user_stats sd w) as [[b | e] w1]; cbn in *.
  - destruct Hu as [[Ho _] | [_ Hd]]; [discriminate | auto].
  - destruct Hu as [[_ Hd] | [Ho _]]; [auto | discriminate].
Qed.

Lemma _start_new_streak_effect (today : date) :
  effect (_start_new_streak today) (start_effect today).
Proof. apply guarded_update_effect. Qed.

Lemma _increment_streak_effect (us : user_stats_row) (today : date) :
  effect (_increment_streak us today) (increment_effect us today).
Proof. apply guarded_update_effect. Qed.

Lemma _handle_streak_break_effect (us : user_stats_row) (today : date) (n : Z) :
  effect (_handle_streak_break us today n) (break_effect us today n).
Proof. apply guarded_update_effect. Qed.

(** The evaluator raises only when its read of the row fails, and then the
    store is as it was; otherwise it performs the transition chosen by the
    row it read. *)
Lemma _process_streak_update_effect (today : date) :
  effect (_process_streak_update today)
         (fun d o d' =>
            (o = Raised Sqlite3Error /\ d' = d) \/
            ((exists sr, o = Ok sr) /\ streak_effect today d o d')).
Proof.
  intros w. unfold _process_streak_update, bind.
  pose proof (get_user_stats_effect w) as Hg.
  destruct (get_user_stats w) as [[r | e] w1]; cbn in *.
  - destruct Hg as [Hd [Ho | Ho]]; [discriminate |].
    rewrite <- Hd in Ho |- *. injection Ho as Hr.
    right. unfold streak_effect. rewrite <- Hr.
    assert (Hstart : (exists sr, fst (_start_new_streak today w1) = Ok sr) /\
                     start_effect today (db w1) (fst (_start_new_streak today w1))
                                  (db (snd (_start_new_streak today w1)))).
    { pose proof (_start_new_streak_effect today w1) as H. split; [| exact H].
      destruct H as [[H _] | [H _]]; rewrite H; eauto. }
    destruct r as [us |]; [| exact Hstart].
    destruct (no_last_activity us); [exact Hstart |].
    fold (days_since_last today us).
    destruct (days_since_last today us =? 0).
    { unfold _maintain_streak, ret; cbn. split; [eauto | auto]. }
    destruct (days_since_last today us =? 1).
    + pose proof (_increment_streak_effect us today w1) as H. split; [| exact H].
      destruct H as [[H _] | [H _]]; rewrite H; eauto.
    + pose proof (_handle_streak_break_effect us today
                    (days_since_last today us) w1) as H. split; [| exact H].
      destruct H as [[H _] | [H _]]; rewrite H; eauto.
  - destruct Hg as [Hd [Ho | Ho]]; [| discriminate]. left. destruct e. split; [reflexivity | assumption].
Qed.

(* ================================================================== *)
(** ** The streak evaluator *)
(* ================================================================== *)

Lemma parsed_text_not_empty (s : string) (d : date) :
  strptime_ymd s = Some d -> String.eqb s "" = false.
Proof. destruct s; [discriminate | reflexivity]. Qed.

Lemma days_between_same (a : date) : days_between a a = 0.
Proof. unfold days_between. lia. Qed.

(** The row found, the evaluator on a store that does not fail. *)
Lemma _process_streak_update_fault_free (today : date) (d : database)
      (us : user_stats_row) :
  user_stats d = Some us ->
  _process_streak_update today (mk_world d []) =
  if no_last_activity us
  then (Ok (mk_streak_result true 1 "🎉 ¡Comienza tu racha financiera!"),
        mk_world (write_stats (start_stats today) d) [])
  else if days_since_last today us =? 0
       then (Ok (maintain_result us), mk_world d [])
       else if days_since_last today us =? 1
            then (Ok (mk_streak_result true (current_streak us + 1)
                        ("🔥 ¡Racha de " ++ dec (current_streak us + 1) ++ " días! +"
                           ++ dec (10 + Z.min (current_streak us + 1) 7 * 2)
                           ++ " puntos")),
                  mk_world (write_stats (increment_stats us today) d) [])
            else (Ok (mk_streak_result true 0
                        ("💔 Racha rota después de "
                           ++ dec (days_since_last today us)
                           ++ " días de inactividad")),
                  mk_world (write_stats (break_stats us today) d) []).
Proof.
  intros Hus.
  unfold _process_streak_update, bind, get_user_stats.
  rewrite transaction_fault_free. cbn [fst snd]. rewrite Hus.
  fold (days_since_last today us).
  destruct (no_last_activity us).
  { unfold _start_new_streak, try_catch, bind, update_user_stats.
    rewrite transaction_fault_free. reflexivity. }
  destruct (days_since_last today us =? 0); [reflexivity |].
  destruct (days_since_last today us =? 1).
  - unfold _increment_streak, try_catch, bind, update_user_stats.
    rewrite transaction_fault_free. reflexivity.
  - unfold _handle_streak_break, try_catch, bind, update_user_stats.
    rewrite transaction_fault_free. reflexivity.
Qed.

Lemma no_last_activity_of_parsed (us : user_stats_row) (s : string) (last : date) :
  last_activity_date us = Some s -> strptime_ymd s = Some last ->
  no_last_activity us = false.
Proof.
  intros Hs Hp. unfold no_last_activity. rewrite Hs.
  exact (parsed_text_not_empty _ _ Hp).
Qed.

Lemma days_since_last_of_parsed (today : date) (us : user_stats_row)
      (s : string) (last : date) :
  last_activity_date us = Some s -> strptime_ymd s = Some last ->
  days_since_last today us = days_between today last.
Proof.
  intros Hs Hp. unfold days_since_last, last_activity_text, _parse_date.
  rewrite Hs, Hp. reflexivity.
Qed.







(* ================================================================== *)
(** ** The level resolver *)
(* ================================================================== *)

(** The tier of every point total, read off the table. *)
Lemma _calculate_level_cases (p : Z) :
  (p < 100 /\ _calculate_level p = 0) \/
  (100 <= p < 300 /\ _calculate_level p = 1) \/
  (300 <= p < 600 /\ _calculate_level p = 2) \/
  (600 <= p < 1000 /\ _calculate_level p = 3) \/
  (1000 <= p < 1500 /\ _calculate_level p = 4) \/
  (1500 <= p < 2100 /\ _calculate_level p = 5) \/
  (2100 <= p < 2800 /\ _calculate_level p = 6) \/
  (2800 <= p < 3600 /\ _calculate_level p = 7) \/
  (3600 <= p < 4500 /\ _calculate_level p = 8) \/
  (4500 <= p /\ _calculate_level p = 9).
Proof.
  unfold _calculate_level, LEVELS. cbn [level_loop l_points Z.add].
  repeat match goal with
         | |- context [?a >=? ?b] =>
             rewrite (Z.geb_leb a b); destruct (Z.leb_spec b a)
         end; cbn; lia.
Qed.

Lemma _calculate_level_monotone (p q : Z) :
  p <= q -> _calculate_level p <= _calculate_level q.
Proof.
  intros Hpq.
  destruct (_calculate_level_cases p) as [H|[H|[H|[H|[H|[H|[H|[H|[H|H]]]]]]]]];
    destruct H as [Hp ->];
    destruct (_calculate_level_cases q) as [K|[K|[K|[K|[K|[K|[K|[K|[K|K]]]]]]]]];
    destruct K as [Hq ->]; lia.
Qed.








Lemma _get_current_points_effect :
  effect _get_current_points
         (fun d o d' =>
            d' = d /\
            (o = Ok 0 \/ exists us, user_stats d = Some us /\ o = Ok (total_points us))).
Proof.
  intros w. unfold _get_current_points, try_catch, bind.
  pose proof (get_user_stats_effect w) as Hg.
  destruct (get_user_stats w) as [[[us |] | e] w1]; cbn in *.
  - destruct Hg as [Hd [Ho | Ho]]; [discriminate |]. injection Ho as Hus.
    split; [exact Hd |]. right. exists us. auto.
  - split; [apply Hg | auto].
  - split; [apply Hg | auto].
Qed.



(* ================================================================== *)
(** ** The points calculator *)
(* ================================================================== *)

Lemma config_get_of_entry (action : string) (v : Z) :
  In (action, v) POINTS_CONFIG -> config_get POINTS_CONFIG action 5 = v.
Proof.
  unfold POINTS_CONFIG. cbn [In].
  intros [H|[H|[H|[H|[H|[]]]]]]; injection H as <- <-; reflexivity.
Qed.

Lemma config_get_default (cfg : list (string * Z)) (action : string) (dflt : Z) :
  config_mem cfg action = false -> config_get cfg action dflt = dflt.
Proof.
  unfold config_mem. induction cfg as [| [k v] rest IH]; cbn; [reflexivity |].
  destruct (String.eqb k action); cbn; [discriminate | exact IH].
Qed.

Lemma _calculate_bonuses_sum (metadata : option pydict) (today : date) :
  _calculate_bonuses metadata today =
  (if flag metadata "first_time" then 10 else 0)
  + (if flag metadata "consistent_week" then 20 else 0)
  + (if has_entries metadata && is_weekend today then 5 else 0).
Proof.
  unfold _calculate_bonuses, flag, has_entries, is_weekend.
  destruct metadata as [[| kv md] |]; [reflexivity | | reflexivity].
  cbv zeta.
  destruct (truthy (dict_get (kv :: md) "first_time" (PyBool false)));
    destruct (truthy (dict_get (kv :: md) "consistent_week" (PyBool false)));
    destruct (weekday today >=? 5); reflexivity.
Qed.

(** C8 (as amended). For every valid action and every metadata map the
    points awarded are the base points of the configuration table (5 for a
    ["custom_"] tag that is not in the table) plus three bonuses that add up
    independently: 10 when the "first time" flag is set, 20 when the
    "consistent week" flag is set, and 5 on a weekend date provided the
    metadata map has at least one entry. The calculator never raises, and on
    a store that does not fail the sum is added to the stored total. *)
Theorem action_points_are_base_plus_bonuses :
  forall (action : string) (metadata : option pydict) (today : date),
    _is_valid_action action = true ->
    let base := config_get POINTS_CONFIG action 5 in
    let bonuses :=
      (if flag metadata "first_time" then 10 else 0)
      + (if flag metadata "consistent_week" then 20 else 0)
      + (if has_entries metadata && is_weekend today then 5 else 0) in
    (forall v, In (action, v) POINTS_CONFIG -> base = v) /\
    (config_mem POINTS_CONFIG action = false ->
       String.prefix "custom_" action = true /\ base = 5) /\
    (forall w,
        fst (_calculate_points action metadata today w) =
        Ok (mk_points_result base bonuses (base + bonuses))) /\
    (forall d us,
        user_stats d = Some us ->
        user_stats (db (snd (_calculate_points action metadata today (mk_world d []))))
        = Some (mk_row (current_streak us) (longest_streak us)
                       (total_points us + (base + bonuses))
                       (total_streak_days us) (last_activity_date us)
                       false false)).
Proof.
  intros action metadata today Hvalid base bonuses.
  split; [apply config_get_of_entry |].
  split.
  { intros Hmem. unfold _is_valid_action in Hvalid. rewrite Hmem in Hvalid.
    split; [exact Hvalid | apply config_get_default, Hmem]. }
  split.
  - intros w. unfold _calculate_points, bind.
    rewrite _calculate_bonuses_sum. fold base bonuses.
    pose proof (_add_points_effect (base + bonuses) w) as [Ho _].
    destruct (_add_points (base + bonuses) w) as [[[] | e] w1]; cbn in *;
      [reflexivity | discriminate].
  - intros d us Hus. unfold _calculate_points, bind.
    rewrite _calculate_bonuses_sum. fold base bonuses.
    rewrite (_add_points_fault_free _ d us Hus). cbn.
    unfold write_stats. rewrite Hus. reflexivity.
Qed.

Lemma action_points_are_base_plus_bonuses_witness :
  fst (_calculate_points "transaction_added"
         (Some [("first_time", PyBool true); ("amount", PyInt 12)])
         (mkdate 2024 1 6) (mk_world initial_db []))
  = Ok (mk_points_result 10 15 25).
Proof.
  exact (proj1 (proj2 (proj2
    (action_points_are_base_plus_bonuses "transaction_added"
       (Some [("first_time", PyBool true); ("amount", PyInt 12)])
       (mkdate 2024 1 6) eq_refl))) (mk_world initial_db [])).
Defined.

(** C8, the claim as written fails: on a Saturday a call with no metadata,
    or with an empty map, earns no weekend bonus. *)
Lemma weekend_bonus_needs_metadata :
  weekday (mkdate 2024 1 6) = 5 /\
  _is_valid_action "transaction_added" = true /\
  fst (_calculate_points "transaction_added" None (mkdate 2024 1 6)
         (mk_world initial_db []))
  = Ok (mk_points_result 10 0 10) /\
  fst (_calculate_points "transaction_added" (Some []) (mkdate 2024 1 6)
         (mk_world initial_db []))
  = Ok (mk_points_result 10 0 10) /\
  fst (_calculate_points "transaction_added" (Some [("source", PyStr "ui")])
         (mkdate 2024 1 6) (mk_world initial_db []))
  = Ok (mk_points_result 10 5 15).
Proof. repeat split. Qed.

(* ================================================================== *)
(** ** The milestone checker *)
(* ================================================================== *)

Lemma record_milestone_never_raises (days : Z) (w : world) :
  fst (try_catch (add_streak_milestone days ;;; ret tt) (fun _ => ret tt) w) = Ok tt.
Proof.
  unfold try_catch, bind.
  destruct (add_streak_milestone days w) as [[b | e] w1]; reflexivity.
Qed.

(** The loop answers with the entry selected by the streak, if any, and
    touches nothing when there is none. *)
Lemma milestones_loop_result (table : list (Z * milestone_info)) (c : Z) (w : world) :
  match lookup_milestone table c with
  | Some (days, info) => fst (milestones_loop table c w) = Ok (fired days info)
  | None => milestones_loop table c w = (Ok no_milestone, w)
  end.
Proof.
  unfold lookup_milestone.
  induction table as [| [days info] rest IH]; cbn [find milestones_loop fst].
  - reflexivity.
  - destruct (c =? days); [| exact IH].
    pose proof (_add_points_effect (m_points info) w) as [Ho _].
    rewrite (bind_ok _ _ _ _ Ho).
    rewrite (bind_ok _ _ _ _ (record_milestone_never_raises days _)).
    reflexivity.
Qed.

Lemma milestones_loop_fault_free (table : list (Z * milestone_info)) (c : Z)
      (d : database) (us : user_stats_row) (days : Z) (info : milestone_info) :
  user_stats d = Some us ->
  lookup_milestone table c = Some (days, info) ->
  milestones_loop table c (mk_world d []) =
  (Ok (fired days info), mk_world (rewarded us days (m_points info) d) []).
Proof.
  unfold lookup_milestone. intros Hus.
  induction table as [| [days' info'] rest IH]; cbn [find milestones_loop fst].
  - discriminate.
  - destruct (c =? days'); [| exact IH].
    intros H. injection H as -> ->.
    rewrite (bind_eq _ _ _ _ _ (_add_points_fault_free _ d us Hus)).
    rewrite (bind_eq _ _ _ _ _ (record_milestone_fault_free _ _)).
    unfold rewarded, write_stats. rewrite Hus. reflexivity.
Qed.

Lemma lookup_milestone_of_entry (c : Z) (info : milestone_info) :
  In (c, info) STREAK_MILESTONES ->
  lookup_milestone STREAK_MILESTONES c = Some (c, info).
Proof.
  unfold STREAK_MILESTONES. cbn [In].
  intros [H|[H|[H|[H|[H|[]]]]]]; injection H as <- <-; reflexivity.
Qed.

Lemma lookup_milestone_cases (c : Z) :
  (exists info, In (c, info) STREAK_MILESTONES) \/
  (~ In c (map fst STREAK_MILESTONES) /\
   lookup_milestone STREAK_MILESTONES c = None).
Proof.
  unfold lookup_milestone, STREAK_MILESTONES. cbn [find map fst In].
  destruct (Z.eqb_spec c 3) as [-> | H3]; [left; eexists; cbn; eauto |].
  destruct (Z.eqb_spec c 7) as [-> | H7]; [left; eexists; cbn; eauto |].
  destruct (Z.eqb_spec c 14) as [-> | H14]; [left; eexists; cbn; eauto |].
  destruct (Z.eqb_spec c 30) as [-> | H30]; [left; eexists; cbn; eauto 6 |].
  destruct (Z.eqb_spec c 90) as [-> | H90]; [left; eexists; cbn; eauto 7 |].
  right. split; [| reflexivity]. intros H. lia.
Qed.

(** C6 (as amended). The checker never raises. It fires exactly when the
    streak it is given equals one of the configured day counts 3, 7, 14, 30,
    90 — whether or not that milestone is already recorded for the user —
    and then answers with that one entry's day count, message and points;
    for any other streak, greater than a milestone or not, it answers that
    nothing was achieved and leaves the store as it was. On a store that
    does not fail, firing adds the entry's points to the stored total
    through [_add_points] and records the day count. *)
Theorem milestone_fires_on_exact_match :
  forall (c : Z) (w : world),
    exists mr,
      fst (_check_milestones c w) = Ok mr /\
      (achieved mr = true <-> In c [3; 7; 14; 30; 90]) /\
      (forall info, In (c, info) STREAK_MILESTONES -> mr = fired c info) /\
      (~ In c [3; 7; 14; 30; 90] ->
         mr = no_milestone /\ db (snd (_check_milestones c w)) = db w) /\
      (forall d us info,
          w = mk_world d [] -> user_stats d = Some us ->
          In (c, info) STREAK_MILESTONES ->
          db (snd (_check_milestones c w)) = rewarded us c (m_points info) d /\
          In c (streak_milestones (db (snd (_check_milestones c w))))).
Proof.
  intros c w. unfold _check_milestones, try_catch.
  pose proof (milestones_loop_result STREAK_MILESTONES c w) as Hres.
  destruct (lookup_milestone_cases c) as [[info Hin] | [Hnot Hnone]].
  - rewrite (lookup_milestone_of_entry c info Hin) in Hres.
    assert (Hkey : In c [3; 7; 14; 30; 90]).
    { change [3; 7; 14; 30; 90] with (map fst STREAK_MILESTONES).
      change c with (fst (c, info)). apply in_map, Hin. }
    destruct (milestones_loop STREAK_MILESTONES c w) as [[mr | e] w1] eqn:Hrun;
      cbn [fst] in Hres; [| discriminate].
    injection Hres as ->.
    exists (fired c info). split; [reflexivity |].
    split; [split; [intros _; exact Hkey | reflexivity] |].
    split.
    { intros info' Hin'.
      pose proof (lookup_milestone_of_entry c info' Hin') as H'.
      rewrite (lookup_milestone_of_entry c info Hin) in H'. congruence. }
    split; [intros Hn; contradiction |].
    intros d us info' -> Hus Hin'.
    rewrite (milestones_loop_fault_free STREAK_MILESTONES c d us c info'
               Hus (lookup_milestone_of_entry c info' Hin')) in Hrun.
    apply (f_equal snd) in Hrun. cbn [snd] in Hrun. subst w1. cbn [snd db].
    split; [reflexivity |]. cbn. auto.
  - rewrite Hnone in Hres. rewrite Hres.
    exists no_milestone. split; [reflexivity |].
    split; [split; [discriminate | intros H; contradiction] |].
    split.
    { intros info Hin. exfalso. apply Hnot.
      change c with (fst (c, info)). apply in_map, Hin. }
    split; [intros _; split; reflexivity |].
    intros d us info _ _ Hin. exfalso. apply Hnot.
    change c with (fst (c, info)). apply in_map, Hin.
Qed.

(** C6, the claim as written fails: after calls on three consecutive days the
    3-day milestone is recorded; a further call on the third day finds the
    streak at 3 again and the milestone fires a second time, paying its 25
    points on top of the 10 of the action. *)
Lemma recorded_milestone_fires_again :
  let c1 := mk_call "transaction_added" None (mkdate 2024 1 1) [] in
  let c2 := mk_call "transaction_added" None (mkdate 2024 1 2) [] in
  let c3 := mk_call "transaction_added" None (mkdate 2024 1 3) [] in
  let d3 := db_after_calls [c1; c2; c3] initial_db in
  In 3 (streak_milestones d3) /\
  exists a sr ps lr w' us us',
    run_call c3 d3 = (Ok (Success a sr ps (fired 3 (mk_milestone 25 "🌟 ¡3 días seguidos!")) lr), w') /\
    user_stats d3 = Some us /\ user_stats (db w') = Some us' /\
    total_points us' = total_points us + 10 + 25.
Proof.
  cbv zeta. split; [vm_compute; auto |].
  do 7 eexists. split; [vm_compute; reflexivity |].
  split; [vm_compute; reflexivity |]. split; [vm_compute; reflexivity |].
  reflexivity.
Qed.

(* ================================================================== *)
(** ** The changes a call makes *)
(* ================================================================== *)

Lemma steady_of_effect (today : date) {A} (m : M A)
      (R : database -> outcome A -> database -> Prop) :
  effect m R ->
  (forall d o d', R d o d' -> d' = d \/ store_change today d d') ->
  steady today m.
Proof.
  intros Hm HR d0 w Hw.
  destruct (HR _ _ _ (Hm w)) as [-> | Hstep]; [exact Hw |].
  eapply changes_more; eassumption.
Qed.

Lemma steady_ret (today : date) {A} (a : A) : steady today (ret a).
Proof. intros d0 w Hw. exact Hw. Qed.

Lemma steady_bind (today : date) {A B} (m : M A) (k : A -> M B) :
  steady today m -> (forall a, steady today (k a)) -> steady today (bind m k).
Proof.
  intros Hm Hk d0.
  apply (hoare_bind _ m k (fun _ d => changes today d0 d)).
  - apply Hm.
  - intros a. apply Hk.
  - auto.
Qed.

Lemma steady_try_catch (today : date) {A} (m : M A) (h : exn -> M A) :
  steady today m -> (forall e, steady today (h e)) -> steady today (try_catch m h).
Proof.
  intros Hm Hh d0.
  apply (hoare_try_catch _ m h (fun _ d => changes today d0 d)).
  - apply Hm.
  - auto.
  - intros e. apply Hh.
Qed.

Lemma steady_record_daily_engagement (today day : date) (action : string) :
  steady today (record_daily_engagement day action).
Proof.
  unfold record_daily_engagement.
  eapply steady_of_effect; [apply transaction_effect |].
  cbn. intros d o d' [[_ ->] | [_ ->]]; [auto |].
  right. apply change_ledger.
Qed.

Lemma steady_add_streak_milestone (today : date) (days : Z) :
  steady today (add_streak_milestone days).
Proof.
  unfold add_streak_milestone.
  eapply steady_of_effect; [apply transaction_effect |].
  cbn. intros d o d' [[_ ->] | [_ ->]]; [auto |].
  right. apply change_milestones.
Qed.

Lemma steady__add_points (today : date) (points : Z) :
  0 <= points -> steady today (_add_points points).
Proof.
  intros Hpos. eapply steady_of_effect; [apply _add_points_effect |].
  cbn. intros d o d' [_ [-> | (us & Hus & ->)]]; [auto |].
  right. apply change_points; assumption.
Qed.

Lemma steady__get_current_points (today : date) : steady today _get_current_points.
Proof.
  eapply steady_of_effect; [apply _get_current_points_effect |].
  cbn. intros d o d' [-> _]. auto.
Qed.

Lemma guarded_write_cases (sd : stats_data) (r r' : streak_result)
      (d : database) (o : outcome streak_result) (d' : database) :
  guarded_write sd r r' d o d' -> d' = d \/ d' = write_stats sd d.
Proof. intros [[_ ->] | [_ ->]]; auto. Qed.

Lemma steady__process_streak_update (today : date) :
  steady today (_process_streak_update today).
Proof.
  eapply steady_of_effect; [apply _process_streak_update_effect |].
  cbn. intros d o d' [[_ ->] | [_ H]]; [auto |].
  unfold streak_effect in H.
  destruct (user_stats d) as [us |] eqn:Hus.
  - destruct (no_last_activity us) eqn:Hno.
    + destruct (guarded_write_cases _ _ _ _ _ _ H) as [-> | ->]; [auto |].
      right. apply change_start. intros us' E. rewrite Hus in E.
      injection E as <-. exact Hno.
    + destruct (Z.eqb_spec (days_since_last today us) 0) as [H0 | H0].
      { left. apply H. }
      destruct (Z.eqb_spec (days_since_last today us) 1) as [H1 | H1].
      * destruct (guarded_write_cases _ _ _ _ _ _ H) as [-> | ->]; [auto |].
        right. apply change_increment; assumption.
      * destruct (guarded_write_cases _ _ _ _ _ _ H) as [-> | ->]; [auto |].
        right. apply change_break; assumption.
  - destruct (guarded_write_cases _ _ _ _ _ _ H) as [-> | ->]; [auto |].
    right. apply change_start. intros us' E. rewrite Hus in E. discriminate.
Qed.

Lemma config_get_at_least_3 (action : string) :
  3 <= config_get POINTS_CONFIG action 5.
Proof.
  unfold POINTS_CONFIG. cbn [config_get].
  repeat match goal with
         | |- context [String.eqb ?a ?b] => destruct (String.eqb a b)
         end; lia.
Qed.

Lemma _calculate_bonuses_nonneg (metadata : option pydict) (today : date) :
  0 <= _calculate_bonuses metadata today.
Proof.
  rewrite _calculate_bonuses_sum.
  destruct (flag metadata "first_time"), (flag metadata "consistent_week"),
    (has_entries metadata && is_weekend today); lia.
Qed.

Lemma steady__calculate_points (today : date) (action : string)
      (metadata : option pydict) :
  steady today (_calculate_points action metadata today).
Proof.
  unfold _calculate_points. apply steady_bind.
  - apply steady__add_points.
    pose proof (config_get_at_least_3 action).
    pose proof (_calculate_bonuses_nonneg metadata today). lia.
  - intros _. apply steady_ret.
Qed.

Lemma steady_milestones_loop (today : date) (table : list (Z * milestone_info))
      (c : Z) :
  Forall (fun entry => 0 <= m_points (snd entry)) table ->
  steady today (milestones_loop table c).
Proof.
  induction 1 as [| [days info] rest Hpos _ IH]; cbn [milestones_loop].
  - apply steady_ret.
  - destruct (c =? days); [| exact IH].
    apply steady_bind; [apply steady__add_points, Hpos |].
    intros _. apply steady_bind; [| intros _; apply steady_ret].
    apply steady_try_catch; [| intros _; apply steady_ret].
    apply steady_bind; [apply steady_add_streak_milestone |].
    intros _. apply steady_ret.
Qed.

Lemma steady__check_milestones (today : date) (c : Z) :
  steady today (_check_milestones c).
Proof.
  unfold _check_milestones.
  apply steady_try_catch; [| intros _; apply steady_ret].
  apply steady_milestones_loop.
  unfold STREAK_MILESTONES. repeat constructor; cbn; lia.
Qed.

Lemma steady__check_level_progression (today : date) :
  steady today _check_level_progression.
Proof.
  unfold _check_level_progression.
  apply steady_bind; [apply steady__get_current_points |].
  intros cp. apply steady_ret.
Qed.

Lemma steady_record_engagement (action : string) (metadata : option pydict)
      (today : date) :
  steady today (record_engagement action metadata today).
Proof.
  unfold record_engagement.
  apply steady_try_catch; [| intros _; apply steady_ret].
  destruct (negb (_is_valid_action action)); [apply steady_ret |].
  apply steady_bind; [apply steady_record_daily_engagement |]. intros _.
  apply steady_bind; [apply steady__process_streak_update |]. intros sr.
  apply steady_bind; [apply steady__calculate_points |]. intros pr.
  apply steady_bind; [apply steady__check_milestones |]. intros mr.
  apply steady_bind; [apply steady__check_level_progression |]. intros lr.
  unfold _consolidate_results.
  apply steady_bind; [apply steady__get_current_points |].
  intros total. apply steady_ret.
Qed.

(** Every call, whatever the faults it meets, takes the store through
    changes of the six kinds. *)
Lemma call_changes (c : call) (d : database) :
  changes (c_today c) d (db_after c d).
Proof.
  unfold db_after, run_call.
  apply (steady_record_engagement (c_action c) (c_metadata c) (c_today c) d
           (mk_world d (c_faults c))).
  apply changes_none.
Qed.

(** An invariant of the six changes is an invariant of every call. *)
Lemma changes_invariant (today : date) (P : database -> Prop) :
  (forall d d', P d -> store_change today d d' -> P d') ->
  forall d d', changes today d d' -> P d -> P d'.
Proof.
  intros Hstep d d' Hch Hd. induction Hch as [| d1 d2 _ IH Hs]; [exact Hd |].
  exact (Hstep _ _ IH Hs).
Qed.

(* ================================================================== *)
(** ** Invariants of the stored state *)
(* ================================================================== *)

Lemma streak_inv_step (today : date) (d d' : database) :
  streak_inv d -> store_change today d d' -> streak_inv d'.
Proof.
  intros Hinv Hstep us' Hus'.
  destruct Hstep as [rows | ms | us n Hus Hn | Hno | us Hus Hno H1 | us Hus Hno H0 H1].
  - apply Hinv, Hus'.
  - apply Hinv, Hus'.
  - specialize (Hinv us Hus). written_row Hus Hus'. lia.
  - unfold write_stats in Hus'.
    destruct (user_stats d) as [us |] eqn:Hus; [| congruence].
    cbn [user_stats] in Hus'. injection Hus' as <-. cbn. lia.
  - specialize (Hinv us Hus). written_row Hus Hus'. lia.
  - specialize (Hinv us Hus). written_row Hus Hus'. lia.
Qed.

Lemma streak_inv_reachable (d : database) : reachable d -> streak_inv d.
Proof.
  induction 1 as [| d c _ IH].
  - intros us H. cbn in H. injection H as <-. cbn. lia.
  - eapply changes_invariant; [| apply call_changes | exact IH].
    intros d1 d2. apply streak_inv_step.
Qed.

(** C3. In every store reachable from a new user's by calls of
    [record_engagement] — whatever their actions, metadata, dates and store
    faults — the current streak is at most the longest streak. *)
Theorem current_streak_at_most_longest :
  forall d : database,
    reachable d ->
    forall us, user_stats d = Some us ->
               current_streak us <= longest_streak us.
Proof.
  intros d Hd us Hus. apply (streak_inv_reachable d Hd us Hus).
Qed.

Lemma current_streak_at_most_longest_witness :
  let c1 := mk_call "transaction_added" None (mkdate 2024 1 1) [] in
  let c2 := mk_call "goal_checked" None (mkdate 2024 1 2) [false; false; true] in
  let c3 := mk_call "dashboard_viewed" None (mkdate 2024 1 10) [] in
  let us := mk_row 0 1 28 1 (Some "2024-01-10") false false in
  user_stats (db_after c3 (db_after c2 (db_after c1 initial_db))) = Some us /\
  current_streak us <= longest_streak us.
Proof.
  cbv zeta. split; [vm_compute; reflexivity |].
  apply (current_streak_at_most_longest
           (db_after (mk_call "dashboard_viewed" None (mkdate 2024 1 10) [])
              (db_after (mk_call "goal_checked" None (mkdate 2024 1 2) [false; false; true])
                 (db_after (mk_call "transaction_added" None (mkdate 2024 1 1) [])
                    initial_db)))).
  - do 3 apply reachable_call. apply reachable_initial.
  - vm_compute. reflexivity.
Defined.

(* ================================================================== *)
(** ** The entry point *)
(* ================================================================== *)

Lemma _calculate_points_answers (action : string) (metadata : option pydict)
      (today : date) (w : world) :
  fst (_calculate_points action metadata today w) =
  Ok (mk_points_result (config_get POINTS_CONFIG action 5)
        (_calculate_bonuses metadata today)
        (config_get POINTS_CONFIG action 5 + _calculate_bonuses metadata today)).
Proof.
  unfold _calculate_points.
  pose proof (_add_points_effect
                (config_get POINTS_CONFIG action 5 + _calculate_bonuses metadata today) w)
    as [Ho _].
  rewrite (bind_ok _ _ _ _ Ho). reflexivity.
Qed.

Lemma _check_milestones_answers (c : Z) (w : world) :
  exists mr, fst (_check_milestones c w) = Ok mr.
Proof.
  unfold _check_milestones, try_catch.
  pose proof (milestones_loop_result STREAK_MILESTONES c w) as H.
  destruct (lookup_milestone STREAK_MILESTONES c) as [[days info] |].
  - destruct (milestones_loop STREAK_MILESTONES c w) as [[mr | e] w1];
      cbn [fst] in H; [cbn; eauto | discriminate].
  - rewrite H. cbn. eauto.
Qed.

Lemma _get_current_points_answers (w : world) :
  exists cp, fst (_get_current_points w) = Ok cp.
Proof.
  destruct (_get_current_points_effect w) as [_ [H | (us & _ & H)]]; eauto.
Qed.

Lemma _check_level_progression_answers (w : world) :
  exists lr, fst (_check_level_progression w) = Ok lr.
Proof.
  unfold _check_level_progression.
  destruct (_get_current_points_answers w) as [cp Hcp].
  rewrite (bind_ok _ _ _ _ Hcp). cbn. eauto.
Qed.

(** Once the streak step has answered, steps 4 to 7 cannot fail the call. *)
Lemma later_steps_succeed (action : string) (metadata : option pydict)
      (today : date) (sr : streak_result) (w : world) :
  exists ps mr lr,
    fst ((points_result <- _calculate_points action metadata today ;;
          milestone_result <- _check_milestones (sr_current_streak sr) ;;
          level_result <- _check_level_progression ;;
          _consolidate_results action sr points_result milestone_result
                               level_result) w)
    = Ok (Success action sr ps mr lr).
Proof.
  rewrite (bind_ok _ _ _ _ (_calculate_points_answers action metadata today w)).
  set (w1 := snd (_calculate_points action metadata today w)).
  destruct (_check_milestones_answers (sr_current_streak sr) w1) as [mr Hmr].
  rewrite (bind_ok _ _ _ _ Hmr).
  set (w2 := snd (_check_milestones (sr_current_streak sr) w1)).
  destruct (_check_level_progression_answers w2) as [lr Hlr].
  rewrite (bind_ok _ _ _ _ Hlr).
  set (w3 := snd (_check_level_progression w2)).
  unfold _consolidate_results.
  destruct (_get_current_points_answers w3) as [total Htotal].
  rewrite (bind_ok _ _ _ _ Htotal). cbn. eauto.
Qed.

Lemma transaction_raises {A} (f : database -> A * database) (w : world)
      (rest : list bool) :
  faults w = true :: rest ->
  transaction f w = (Raised Sqlite3Error, mk_world (db w) rest).
Proof. unfold transaction. intros ->. reflexivity. Qed.

Lemma transaction_commits {A} (f : database -> A * database) (w : world) :
  (forall rest, faults w <> true :: rest) ->
  transaction f w = (Ok (fst (f (db w))), mk_world (snd (f (db w))) (tl (faults w))).
Proof.
  unfold transaction. intros H.
  destruct (faults w) as [| [|] rest]; destruct (f (db w)); cbn;
    [reflexivity | exfalso; eapply H; reflexivity | reflexivity].
Qed.

Lemma _process_streak_update_answers (today : date) (w : world) :
  (forall rest, faults w <> true :: rest) ->
  exists sr, fst (_process_streak_update today w) = Ok sr.
Proof.
  intros Hf. pose proof (_process_streak_update_effect today w) as [[Ho _] | [Ho _]];
    [| exact Ho].
  exfalso. revert Ho. unfold _process_streak_update, get_user_stats.
  rewrite (bind_eq _ _ _ _ _ (transaction_commits _ w Hf)). cbn [fst].
  set (w1 := mk_world _ _).
  assert (Hs : exists sr', fst (_start_new_streak today w1) = Ok sr')
    by (destruct (_start_new_streak_effect today w1) as [[H _] | [H _]]; eauto).
  destruct (user_stats (db w)) as [us |].
  - destruct (no_last_activity us).
    + destruct Hs as [sr' ->]. discriminate.
    + destruct (_ =? 0); [discriminate |].
      destruct (_ =? 1).
      * destruct (_increment_streak_effect us today w1) as [[-> _] | [-> _]];
          discriminate.
      * destruct (_handle_streak_break_effect us today
                    (days_between today (_parse_date today (last_activity_text us))) w1)
          as [[-> _] | [-> _]]; discriminate.
  - destruct (_start_new_streak_effect today w1) as [[-> _] | [-> _]]; discriminate.
Qed.

Lemma _process_streak_update_raises (today : date) (w : world) (rest : list bool) :
  faults w = true :: rest ->
  _process_streak_update today w = (Raised Sqlite3Error, mk_world (db w) rest).
Proof.
  intros Hf. unfold _process_streak_update, get_user_stats.
  apply bind_raised_eq. apply transaction_raises, Hf.
Qed.

(** The four ways a call can go. *)
Lemma record_engagement_outcome (action : string) (metadata : option pydict)
      (today : date) (w : world) :
  let run := record_engagement action metadata today w in
  let w1 := after_ledger today action w in
  (_is_valid_action action = false /\
   run = (Ok (Failure ("Acción no válida: " ++ action)), w)) \/
  (_is_valid_action action = true /\
   exists rest, faults w = true :: rest /\
     run = (Ok (Failure "Error procesando engagement"), mk_world (db w) rest)) \/
  (_is_valid_action action = true /\
   (forall rest, faults w <> true :: rest) /\
   exists rest, faults w1 = true :: rest /\
     run = (Ok (Failure "Error procesando engagement"), mk_world (db w1) rest)) \/
  (_is_valid_action action = true /\
   (forall rest, faults w <> true :: rest) /\
   (forall rest, faults w1 <> true :: rest) /\
   exists sr ps mr lr,
     fst (_process_streak_update today w1) = Ok sr /\
     fst run = Ok (Success action sr ps mr lr)).
Proof.
  cbv zeta. unfold record_engagement, try_catch, _error_response.
  destruct (_is_valid_action action) eqn:Hv; cbn [negb]; [| left; auto].
  right.
  assert (Hw : (exists rest, faults w = true :: rest) \/
               (forall rest, faults w <> true :: rest)).
  { destruct (faults w) as [| [|] rest]; [right | left | right];
      eauto; intros r H; discriminate H. }
  destruct Hw as [[rest Hf] | Hf].
  { left. split; [reflexivity |]. exists rest. split; [exact Hf |].
    unfold record_daily_engagement.
    rewrite (bind_raised_eq _ _ _ _ _ (transaction_raises _ w rest Hf)).
    reflexivity. }
  right. unfold record_daily_engagement.
  rewrite (bind_eq _ _ _ _ _ (transaction_commits _ w Hf)). cbn [fst snd].
  fold (after_ledger today action w). set (w1 := after_ledger today action w).
  assert (Hw1 : (exists rest, faults w1 = true :: rest) \/
                (forall rest, faults w1 <> true :: rest)).
  { destruct (faults w1) as [| [|] rest]; [right | left | right];
      eauto; intros r H; discriminate H. }
  destruct Hw1 as [[rest Hf1] | Hf1].
  { left. split; [reflexivity |]. split; [exact Hf |].
    exists rest. split; [exact Hf1 |].
    rewrite (bind_raised_eq _ _ _ _ _ (_process_streak_update_raises today w1 rest Hf1)).
    reflexivity. }
  right. split; [reflexivity |]. split; [exact Hf |]. split; [exact Hf1 |].
  destruct (_process_streak_update_answers today w1 Hf1) as [sr Hsr].
  rewrite (bind_ok _ _ _ _ Hsr).
  destruct (later_steps_succeed action metadata today sr
              (snd (_process_streak_update today w1))) as (ps & mr & lr & Hrun).
  exists sr, ps, mr, lr. split; [exact Hsr |].
  match goal with
  | |- fst (match ?body with _ => _ end) = _ =>
      change (fst body = Ok (Success action sr ps mr lr)) in Hrun;
      destruct body as [o w']
  end.
  cbn [fst] in Hrun. subst o. reflexivity.
Qed.

Lemma fails_early_cases (w : world) (today : date) (action : string) :
  fails_early (faults w) <->
  (exists rest, faults w = true :: rest) \/
  ((forall rest, faults w <> true :: rest) /\
   exists rest, faults (after_ledger today action w) = true :: rest).
Proof.
  unfold fails_early, after_ledger. cbn [faults].
  destruct (faults w) as [| [|] fl]; cbn [tl].
  - split.
    + intros [[r H] | [r H]]; discriminate H.
    + intros [[r H] | [_ [r H]]]; discriminate H.
  - split; intros _; left; eauto.
  - split.
    + intros [[r H] | [r H]]; [discriminate H |].
      injection H as ->. right. split; [intros r' H'; discriminate H' | eauto].
    + intros [[r H] | [_ [r H]]]; [discriminate H |].
      right. exists r. congruence.
Qed.

(** C10 (as amended). [record_engagement] never lets an exception through:
    every call, whatever the faults of the store, returns a result. The
    result is the structured error exactly when the action is not valid, the
    ledger write of step 2 fails, or the read of the user's row that opens
    step 3 fails; whenever the error is returned, the user's row and the
    recorded milestones are as they were before the call. *)
Theorem record_engagement_always_answers :
  forall (action : string) (metadata : option pydict) (today : date) (w : world),
    exists r,
      fst (record_engagement action metadata today w) = Ok r /\
      (success r = false <->
         _is_valid_action action = false \/ fails_early (faults w)) /\
      (success r = false ->
         user_stats (db (snd (record_engagement action metadata today w)))
           = user_stats (db w) /\
         streak_milestones (db (snd (record_engagement action metadata today w)))
           = streak_milestones (db w)).
Proof.
  intros action metadata today w.
  pose proof (fails_early_cases w today action) as Hearly.
  destruct (record_engagement_outcome action metadata today w)
    as [[Hv Hrun] | [[Hv (rest & Hf & Hrun)] |
        [(Hv & Hf & rest & Hf1 & Hrun) | (Hv & Hf & Hf1 & sr & ps & mr & lr & _ & Hrun)]]].
  - rewrite Hrun. eexists. split; [reflexivity |]. cbn.
    split; [split; auto |]. auto.
  - rewrite Hrun. eexists. split; [reflexivity |]. cbn.
    split; [| auto]. split; [| reflexivity].
    intros _. right. apply Hearly. eauto.
  - rewrite Hrun. eexists. split; [reflexivity |]. cbn.
    split; [| auto]. split; [| reflexivity].
    intros _. right. apply Hearly. eauto.
  - rewrite Hrun. eexists. split; [reflexivity |]. cbn.
    split; [| discriminate]. split; [discriminate |].
    intros [Hbad | Hbad]; [congruence |].
    apply Hearly in Hbad. destruct Hbad as [[r H] | [_ [r H]]].
    + exfalso. exact (Hf r H).
    + exfalso. exact (Hf1 r H).
Qed.

(** C10, the claim as written fails: when the write of the Start transition
    fails, the failure is absorbed inside step 3; the call answers with
    success, the 25 points of the action are stored, and the streak is not. *)
Lemma failed_write_is_absorbed :
  let c := mk_call "weekly_review_completed" None (mkdate 2024 1 1)
                   [false; false; true] in
  exists a sr ps mr lr w',
    run_call c initial_db = (Ok (Success a sr ps mr lr), w') /\
    In true (c_faults c) /\ faults w' = [] /\
    streak_updated sr = false /\
    user_stats (db w') = Some (mk_row 0 0 25 0 None false false) /\
    user_stats (db w') <> user_stats initial_db.
Proof.
  cbv zeta. do 6 eexists. split; [vm_compute; reflexivity |].
  cbn. repeat split; auto. intro H. discriminate H.
Qed.

(* ================================================================== *)
(** ** Same-day calls *)
(* ================================================================== *)

Lemma days_since_last_today (today : date) (us : user_stats_row) (s : string) :
  last_activity_date us = Some s -> strptime_ymd s = Some today ->
  days_since_last today us = 0.
Proof.
  intros Hs Hp. rewrite (days_since_last_of_parsed today us s today Hs Hp).
  apply days_between_same.
Qed.

(** With today's date stored, no change a call can make touches the streak
    fields: the guards of Start, Increment and Break are all false. *)
Lemma same_streak_step (today : date) (us : user_stats_row) (s : string)
      (d d' : database) :
  last_activity_date us = Some s -> strptime_ymd s = Some today ->
  same_streak us d -> store_change today d d' -> same_streak us d'.
Proof.
  intros Hs Hp (us1 & Hus1 & Hc & Hl & Ht & Hd) Hstep.
  assert (Hs1 : last_activity_date us1 = Some s) by congruence.
  pose proof (no_last_activity_of_parsed us1 s today Hs1 Hp) as Hno1.
  pose proof (days_since_last_today today us1 s Hs1 Hp) as H01.
  destruct Hstep as [rows | ms | us2 n Hus Hn | Hno | us2 Hus Hno H1 | us2 Hus Hno H0 H1].
  - exists us1. cbn. auto.
  - exists us1. cbn. auto.
  - assert (us2 = us1) by congruence. subst us2.
    unfold write_stats. rewrite Hus1. eexists. split; [reflexivity |]. cbn. auto.
  - rewrite (Hno us1 Hus1) in Hno1. discriminate.
  - assert (us2 = us1) by congruence. subst us2. lia.
  - assert (us2 = us1) by congruence. subst us2. lia.
Qed.

Lemma same_streak_after_call (us : user_stats_row) (s : string) (c : call)
      (d : database) :
  last_activity_date us = Some s -> strptime_ymd s = Some (c_today c) ->
  same_streak us d -> same_streak us (db_after c d).
Proof.
  intros Hs Hp Hd.
  eapply changes_invariant; [| apply call_changes | exact Hd].
  intros d1 d2. apply (same_streak_step (c_today c) us s); assumption.
Qed.

Lemma maintain_is_answered (today : date) (us : user_stats_row) (s : string)
      (w : world) (sr : streak_result) :
  user_stats (db w) = Some us ->
  last_activity_date us = Some s -> strptime_ymd s = Some today ->
  fst (_process_streak_update today w) = Ok sr ->
  sr = maintain_result us.
Proof.
  intros Hus Hs Hp Hsr.
  destruct (_process_streak_update_effect today w) as [[Ho _] | [_ Heff]];
    [congruence |].
  unfold streak_effect in Heff. rewrite Hus in Heff.
  rewrite (no_last_activity_of_parsed us s today Hs Hp) in Heff.
  rewrite (days_since_last_today today us s Hs Hp) in Heff. cbn in Heff.
  destruct Heff as [Ho _]. congruence.
Qed.

(** C4. When the stored date is today's, a call of [record_engagement]
    takes the Maintain branch: a successful call reports "already active
    today" with the stored streak, and the stored streak, longest streak,
    streak days and date are what they were. Hence a second call on the same
    day leaves the streak where the first one left it. *)
Theorem same_day_call_maintains :
  forall (d : database) (us : user_stats_row) (s : string) (today : date)
         (c1 c2 : call),
    user_stats d = Some us ->
    last_activity_date us = Some s ->
    strptime_ymd s = Some today ->
    c_today c1 = today ->
    c_today c2 = today ->
    (forall a sr ps mr lr,
        fst (run_call c1 d) = Ok (Success a sr ps mr lr) ->
        sr = maintain_result us) /\
    same_streak us (db_after c1 d) /\
    (exists us1 us2,
        user_stats (db_after c1 d) = Some us1 /\
        user_stats (db_after c2 (db_after c1 d)) = Some us2 /\
        current_streak us2 = current_streak us1 /\
        current_streak us1 = current_streak us).
Proof.
  intros d us s today c1 c2 Hus Hs Hp <- Hc2.
  assert (H0 : same_streak us d) by (exists us; auto).
  pose proof (same_streak_after_call us s c1 d Hs Hp H0) as H1.
  assert (Hp2 : strptime_ymd s = Some (c_today c2)) by congruence.
  pose proof (same_streak_after_call us s c2 _ Hs Hp2 H1) as H2.
  split; [| split; [exact H1 |]].
  - intros a sr ps mr lr Hrun. unfold run_call in Hrun.
    destruct (record_engagement_outcome (c_action c1) (c_metadata c1) (c_today c1)
                (mk_world d (c_faults c1)))
      as [[_ Hr] | [[_ (rest & _ & Hr)] |
          [(_ & _ & rest & _ & Hr) | (_ & _ & _ & sr' & ps' & mr' & lr' & Hsr & Hr)]]];
      rewrite Hr in Hrun; try discriminate Hrun.
    injection Hrun as _ <- _ _ _.
    exact (maintain_is_answered (c_today c1) us s
             (after_ledger (c_today c1) (c_action c1) (mk_world d (c_faults c1)))
             sr' Hus Hs Hp Hsr).
  - destruct H1 as (us1 & Hus1 & Hc1 & _).
    destruct H2 as (us2 & Hus2 & Hc2' & _).
    exists us1, us2. repeat split; try assumption. lia.
Qed.

Lemma same_day_call_maintains_witness :
  let us := mk_row 3 5 100 8 (Some "2024-01-03") false false in
  let d := mk_db (Some us) [3] [] in
  let c1 := mk_call "dashboard_viewed" None (mkdate 2024 1 3) [] in
  let c2 := mk_call "goal_checked" None (mkdate 2024 1 3) [] in
  same_streak us (db_after c1 d) /\
  exists us1 us2,
    user_stats (db_after c1 d) = Some us1 /\
    user_stats (db_after c2 (db_after c1 d)) = Some us2 /\
    current_streak us2 = current_streak us1 /\
    current_streak us1 = current_streak us.
Proof.
  cbv zeta.
  exact (proj2 (same_day_call_maintains
                  (mk_db (Some (mk_row 3 5 100 8 (Some "2024-01-03") false false)) [3] [])
                  (mk_row 3 5 100 8 (Some "2024-01-03") false false)
                  "2024-01-03" (mkdate 2024 1 3)
                  (mk_call "dashboard_viewed" None (mkdate 2024 1 3) [])
                  (mk_call "goal_checked" None (mkdate 2024 1 3) [])
                  eq_refl eq_refl eq_refl eq_refl eq_refl)).
Defined.

(* ================================================================== *)
(** ** The running totals *)
(* ================================================================== *)

Lemma append_not_empty (a : string) (c : ascii) (r : string) :
  String.eqb (a ++ String c r) "" = false.
Proof. destruct a; reflexivity. Qed.

Lemma isoformat_not_empty (d : date) : String.eqb (isoformat d) "" = false.
Proof. unfold isoformat. apply append_not_empty. Qed.

Lemma undated_inv_step (today : date) (d d' : database) :
  undated_inv d -> store_change today d d' -> undated_inv d'.
Proof.
  intros Hinv Hstep us' Hus' Hno'.
  destruct Hstep as [rows | ms | us n Hus Hn | Hno | us Hus Hno H1 | us Hus Hno H0 H1].
  - exact (Hinv us' Hus' Hno').
  - exact (Hinv us' Hus' Hno').
  - specialize (Hinv us Hus). written_row Hus Hus'. apply Hinv. exact Hno'.
  - unfold write_stats in Hus'.
    destruct (user_stats d) as [us |] eqn:Hus; [| exact (Hinv us' Hus' Hno')].
    cbn [user_stats] in Hus'. injection Hus' as <-.
    unfold no_last_activity in Hno'. cbn [last_activity_date] in Hno'.
    rewrite isoformat_not_empty in Hno'. discriminate.
  - written_row Hus Hus'. unfold no_last_activity in Hno'. cbn [last_activity_date] in Hno'.
    rewrite isoformat_not_empty in Hno'. discriminate.
  - written_row Hus Hus'. unfold no_last_activity in Hno'. cbn [last_activity_date] in Hno'.
    rewrite isoformat_not_empty in Hno'. discriminate.
Qed.

Lemma streak_days_step (today : date) (d d' : database) :
  undated_inv d -> store_change today d d' ->
  stored_streak_days d <= stored_streak_days d'.
Proof.
  intros Hinv Hstep. unfold stored_streak_days.
  destruct Hstep as [rows | ms | us n Hus Hn | Hno | us Hus Hno H1 | us Hus Hno H0 H1];
    cbn [user_stats]; try lia;
    unfold write_stats;
    try (rewrite Hus; cbn; lia).
  destruct (user_stats d) as [us |] eqn:Hus; [| rewrite Hus; lia].
  cbn. destruct (Hinv us Hus (Hno us eq_refl)) as (_ & _ & ->). lia.
Qed.

Lemma undated_inv_reachable (d : database) : reachable d -> undated_inv d.
Proof.
  induction 1 as [| d c _ IH].
  - intros us H _. cbn in H. injection H as <-. auto.
  - eapply changes_invariant; [| apply call_changes | exact IH].
    intros d1 d2. apply undated_inv_step.
Qed.

(** X2. Over every call of [record_engagement] made on a store reachable
    from a new user's, whatever the store faults, the total of streak days
    after the call is at least the total before it. *)
Lemma streak_days_never_decrease (d : database) (c : call) :
  reachable d -> stored_streak_days d <= stored_streak_days (db_after c d).
Proof.
  intros Hd.
  assert (H : undated_inv (db_after c d) /\
              stored_streak_days d <= stored_streak_days (db_after c d));
    [| apply H].
  apply (changes_invariant (c_today c)
           (fun d' => undated_inv d' /\ stored_streak_days d <= stored_streak_days d'))
    with (d := d).
  - intros d1 d2 [Hinv Hle] Hstep. split.
    + exact (undated_inv_step _ _ _ Hinv Hstep).
    + pose proof (streak_days_step _ _ _ Hinv Hstep). lia.
  - apply call_changes.
  - split; [apply undated_inv_reachable, Hd | lia].
Qed.

(** C2, the points half fails on the code. The first call meets a store
    fault on the write of its Start transition: the streak is not started,
    but the 25 points of the action are stored. The second call finds no
    date, Starts, and overwrites the total with 10 before adding its own 3
    points: the stored total falls from 25 to 13. *)
Theorem points_fall_when_start_follows_a_failed_start :
  let c1 := mk_call "weekly_review_completed" None (mkdate 2024 1 1)
                    [false; false; true] in
  let c2 := mk_call "goal_checked" None (mkdate 2024 1 2) [] in
  let d1 := db_after c1 initial_db in
  let d2 := db_after c2 d1 in
  reachable d1 /\ reachable d2 /\
  stored_points d1 = 25 /\ stored_points d2 = 13 /\
  stored_points d2 < stored_points d1 /\
  stored_streak_days d1 <= stored_streak_days d2.
Proof.
  cbv zeta. split; [| split].
  - apply reachable_call, reachable_initial.
  - do 2 apply reachable_call. apply reachable_initial.
  - vm_compute. repeat split; intro H; discriminate H.
Qed.

(** *** Calls that meet no fault *)

Lemma clean_ret {A} (P : database -> Prop) (a : A) (Q : A -> database -> Prop) :
  (forall d, P d -> Q a d) -> clean P (ret a) Q.
Proof. intros H w Hc Hw. exists a, w. auto. Qed.

Lemma clean_bind {A B} (P : database -> Prop) (m : M A) (k : A -> M B)
      (Q1 : A -> database -> Prop) (Q2 : B -> database -> Prop) :
  clean P m Q1 -> (forall a, clean (Q1 a) (k a) Q2) -> clean P (bind m k) Q2.
Proof.
  intros Hm Hk w Hc Hw.
  destruct (Hm w Hc Hw) as (a & w1 & Hrun & Hc1 & Hq1).
  destruct (Hk a w1 Hc1 Hq1) as (b & w2 & Hrun2 & Hc2 & Hq2).
  exists b, w2. rewrite (bind_eq _ _ _ _ _ Hrun). auto.
Qed.

Lemma clean_try_catch {A} (P : database -> Prop) (m : M A) (h : exn -> M A)
      (Q : A -> database -> Prop) :
  clean P m Q -> clean P (try_catch m h) Q.
Proof.
  intros Hm w Hc Hw. destruct (Hm w Hc Hw) as (a & w1 & Hrun & H).
  exists a, w1. unfold try_catch. rewrite Hrun. auto.
Qed.

Lemma clean_transaction {A} (P : database -> Prop) (f : database -> A * database)
      (Q : A -> database -> Prop) :
  (forall d, P d -> Q (fst (f d)) (snd (f d))) -> clean P (transaction f) Q.
Proof.
  intros H w Hc Hw. unfold calm in Hc. unfold transaction.
  destruct (faults w) as [| [|] rest] eqn:Hf; cbn in Hc; [| discriminate |];
    specialize (H _ Hw); destruct (f (db w)) as [a d'];
    eexists; eexists; (split; [reflexivity |]); split; auto.
Qed.

Lemma clean_weaken {A} (P P' : database -> Prop) (m : M A)
      (Q Q' : A -> database -> Prop) :
  clean P' m Q' -> (forall d, P d -> P' d) -> (forall a d, Q' a d -> Q a d) ->
  clean P m Q.
Proof.
  intros Hm Hp Hq w Hc Hw.
  destruct (Hm w Hc (Hp _ Hw)) as (a & w1 & Hrun & Hc1 & Hq1).
  exists a, w1. auto.
Qed.

Section PointsWithoutFaults.

(** The stored total when the call begins. *)
Variable p0 : Z.


Lemma keeps_dated_settled (d : database) : keeps_dated p0 d -> keeps_settled p0 d.
Proof.
  intros [Hd Hp]. split; [| exact Hp].
  intros us Hus. destruct (Hd us Hus) as [Hc Hno]. split; [exact Hc |].
  rewrite Hno. discriminate.
Qed.

Lemma clean_get_user_stats (P : database -> Prop) :
  clean P get_user_stats (fun a d => P d /\ a = user_stats d).
Proof. apply clean_transaction. cbn. auto. Qed.

Lemma clean_guarded_update (P Q : database -> Prop) (sd : stats_data)
      (r r' : streak_result) :
  (forall d, P d -> Q (write_stats sd d)) ->
  clean P (try_catch (update_user_stats sd ;;; ret r) (fun _ => ret r'))
        (fun _ d => Q d).
Proof.
  intros H. apply clean_try_catch.
  eapply clean_bind with (Q1 := fun _ d => Q d).
  - apply clean_transaction. exact H.
  - intros ?. apply clean_ret. auto.
Qed.

Lemma written_row_dated (sd : stats_data) (today : date) (d : database) :
  sd_last_activity_date sd = Some (isoformat today) ->
  0 <= sd_current_streak sd ->
  (forall us, user_stats d = Some us -> p0 <= sd_total_points sd) ->
  p0 <= stored_points d ->
  (keeps_dated p0) (write_stats sd d).
Proof.
  intros Hdate Hc Hp Hp0. unfold keeps_dated, dated, stored_points, write_stats.
  destruct (user_stats d) as [us |] eqn:Hus.
  - cbn [user_stats]. split.
    + intros us' E. injection E as <-. cbn. split; [exact Hc |].
      unfold no_last_activity. cbn [last_activity_date]. rewrite Hdate.
      apply isoformat_not_empty.
    + cbn. exact (Hp us eq_refl).
  - rewrite Hus. unfold stored_points in Hp0. rewrite Hus in Hp0.
    split; [intros us' E; discriminate E | exact Hp0].
Qed.

Lemma clean__process_streak_update (today : date) :
  clean (keeps_settled p0) (_process_streak_update today) (fun _ d => (keeps_dated p0) d).
Proof.
  unfold _process_streak_update.
  eapply clean_bind; [apply clean_get_user_stats |].
  intros [us |].
  - destruct (no_last_activity us) eqn:Hno.
    + apply clean_guarded_update. intros d [[Hs Hp] Hus].
      unfold stored_points in Hp. rewrite <- Hus in Hp.
      destruct (Hs us (eq_sym Hus)) as [_ H10]. specialize (H10 Hno).
      apply (written_row_dated _ today).
      * reflexivity.
      * cbn [sd_current_streak]. lia.
      * intros _ _. cbn [sd_total_points]. lia.
      * unfold stored_points. rewrite <- Hus. exact Hp.
    + fold (days_since_last today us).
      destruct (days_since_last today us =? 0).
      { apply clean_ret. intros d [[Hs Hp] Hus]. split; [| exact Hp].
        intros us' E. rewrite <- Hus in E. injection E as <-.
        split; [apply (Hs us (eq_sym Hus)) | exact Hno]. }
      destruct (days_since_last today us =? 1).
      * apply clean_guarded_update. intros d [[Hs Hp] Hus].
        destruct (Hs us (eq_sym Hus)) as [Hc _].
        unfold stored_points in Hp. rewrite <- Hus in Hp.
        apply (written_row_dated _ today).
        -- reflexivity.
        -- cbn [sd_current_streak]. lia.
        -- intros _ _. cbn [sd_total_points]. lia.
        -- unfold stored_points. rewrite <- Hus. exact Hp.
      * apply clean_guarded_update. intros d [[Hs Hp] Hus].
        unfold stored_points in Hp. rewrite <- Hus in Hp.
        apply (written_row_dated _ today).
        -- reflexivity.
        -- cbn [sd_current_streak]. lia.
        -- intros _ _. cbn [sd_total_points]. lia.
        -- unfold stored_points. rewrite <- Hus. exact Hp.
  - apply clean_guarded_update. intros d [[Hs Hp] Hus].
    unfold write_stats. rewrite <- Hus. split; [| exact Hp].
    intros us' E. rewrite <- Hus in E. discriminate E.
Qed.

Lemma clean__add_points (points : Z) :
  0 <= points -> clean (keeps_dated p0) (_add_points points) (fun _ d => (keeps_dated p0) d).
Proof.
  intros Hpos. unfold _add_points. apply clean_try_catch.
  eapply clean_bind; [apply clean_get_user_stats |].
  intros [us |].
  - eapply clean_bind with (Q1 := fun _ d => (keeps_dated p0) d);
      [| intros ?; apply clean_ret; auto].
    apply clean_transaction. cbn [fst snd]. intros d [[Hd Hp] Hus].
    rewrite <- Hus. destruct (Hd us (eq_sym Hus)) as [Hc Hno].
    unfold stored_points in Hp. rewrite <- Hus in Hp.
    split.
    + intros us' E. cbn in E. injection E as <-. cbn. split; [exact Hc |].
      exact Hno.
    + unfold stored_points. cbn. lia.
  - apply clean_ret. intros d [H _]. exact H.
Qed.

Lemma clean__get_current_points :
  clean (keeps_dated p0) _get_current_points (fun _ d => (keeps_dated p0) d).
Proof.
  unfold _get_current_points. apply clean_try_catch.
  eapply clean_bind; [apply clean_get_user_stats |].
  intros a. apply clean_ret. intros d [H _]. exact H.
Qed.

Lemma clean_milestones_loop (table : list (Z * milestone_info)) (c : Z) :
  Forall (fun entry => 0 <= m_points (snd entry)) table ->
  clean (keeps_dated p0) (milestones_loop table c) (fun _ d => (keeps_dated p0) d).
Proof.
  induction 1 as [| [days info] rest Hpos _ IH]; cbn [milestones_loop].
  - apply clean_ret. auto.
  - destruct (c =? days); [| exact IH].
    eapply clean_bind; [apply clean__add_points, Hpos |]. intros ?.
    eapply clean_bind with (Q1 := fun _ d => (keeps_dated p0) d);
      [| intros ?; apply clean_ret; auto].
    apply clean_try_catch.
    eapply clean_bind with (Q1 := fun _ d => (keeps_dated p0) d);
      [| intros ?; apply clean_ret; auto].
    apply clean_transaction. cbn. auto.
Qed.

Lemma clean_record_engagement (action : string) (metadata : option pydict)
      (today : date) :
  clean (keeps_settled p0) (record_engagement action metadata today) (fun _ d => (keeps_settled p0) d).
Proof.
  unfold record_engagement. apply clean_try_catch.
  destruct (negb (_is_valid_action action)); [apply clean_ret; auto |].
  eapply clean_bind with (Q1 := fun _ d => (keeps_settled p0) d).
  { apply clean_transaction. cbn. auto. }
  intros ?. eapply clean_bind; [apply clean__process_streak_update |].
  intros sr. eapply clean_bind with (Q1 := fun _ d => (keeps_dated p0) d).
  { unfold _calculate_points.
    eapply clean_bind with (Q1 := fun _ d => (keeps_dated p0) d);
      [| intros ?; apply clean_ret; auto].
    apply clean__add_points.
    pose proof (config_get_at_least_3 action).
    pose proof (_calculate_bonuses_nonneg metadata today). lia. }
  intros pr. eapply clean_bind with (Q1 := fun _ d => (keeps_dated p0) d).
  { unfold _check_milestones. apply clean_try_catch.
    apply clean_milestones_loop.
    unfold STREAK_MILESTONES. repeat constructor; cbn; lia. }
  intros mr. eapply clean_bind with (Q1 := fun _ d => (keeps_dated p0) d).
  { unfold _check_level_progression.
    eapply clean_bind; [apply clean__get_current_points |].
    intros cp. apply clean_ret. auto. }
  intros lr. unfold _consolidate_results.
  eapply clean_bind; [apply clean__get_current_points |].
  intros total. apply clean_ret. intros d. apply keeps_dated_settled.
Qed.

End PointsWithoutFaults.

(** The points never decrease over a call that meets no store fault, from a
    store whose undated row holds at most the 10 points of a Start. *)
Lemma points_never_decrease_without_faults (d : database) (c : call) :
  settled d -> fault_free c = true ->
  stored_points d <= stored_points (db_after c d) /\ settled (db_after c d).
Proof.
  intros Hs Hc.
  destruct (clean_record_engagement (stored_points d) (c_action c) (c_metadata c)
              (c_today c) (mk_world d (c_faults c)))
    as (r & w' & Hrun & _ & Hs' & Hp').
  - exact Hc.
  - split; [exact Hs | cbn; lia].
  - unfold db_after, run_call. rewrite Hrun. cbn. split; assumption.
Qed.

Lemma settled_after_calls (cs : list call) (d : database) :
  settled d -> Forall (fun c => fault_free c = true) cs ->
  settled (db_after_calls cs d).
Proof.
  revert d. induction cs as [| c cs IH]; intros d Hs Hcs; [exact Hs |].
  inversion Hcs as [| c' cs' Hc Hrest]; subst.
  unfold db_after_calls. cbn [fold_left]. apply IH; [| exact Hrest].
  apply points_never_decrease_without_faults; assumption.
Qed.

(** X3. Over any sequence of calls from a new user's store during which the
    store never fails, each further call that meets no fault leaves at least
    the points it found. *)
Lemma points_monotone_over_fault_free_calls (cs : list call) (c : call) :
  Forall (fun c => fault_free c = true) cs -> fault_free c = true ->
  stored_points (db_after_calls cs initial_db)
  <= stored_points (db_after c (db_after_calls cs initial_db)).
Proof.
  intros Hcs Hc.
  apply points_never_decrease_without_faults; [| exact Hc].
  apply settled_after_calls; [| exact Hcs].
  intros us H. cbn in H. injection H as <-. cbn. split; [lia |]. intros _. lia.
Qed.

(* ================================================================== *)
(** ** Worked examples *)
(* ================================================================== *)

Example toordinal_2024_01_01 : toordinal (mkdate 2024 1 1) = 738886.
Proof. reflexivity. Qed.

Example weekday_2024_01_06 : weekday (mkdate 2024 1 6) = 5.
Proof. reflexivity. Qed.

Example isoformat_2024_01_01 : isoformat (mkdate 2024 1 1) = "2024-01-01".
Proof. reflexivity. Qed.

Example strptime_2024_01_01 : strptime_ymd "2024-01-01" = Some (mkdate 2024 1 1).
Proof. reflexivity. Qed.

Example strptime_short_fields : strptime_ymd "2024-1-5" = Some (mkdate 2024 1 5).
Proof. reflexivity. Qed.

Example strptime_no_such_day : strptime_ymd "2023-02-29" = None.
Proof. reflexivity. Qed.

Example strptime_garbage : strptime_ymd "ayer" = None.
Proof. reflexivity. Qed.

Example strptime_datetime_text : strptime_ymd "2024-01-01T10:00:00" = None.
Proof. reflexivity. Qed.

(** A new user's first action of the day: Start (10) plus the action (10). *)
Example first_call_of_a_new_user :
  user_stats (db_after (mk_call "transaction_added" None (mkdate 2024 1 1) [])
                       initial_db)
  = Some (mk_row 1 1 20 1 (Some "2024-01-01") false false).
Proof. reflexivity. Qed.

(** The next day: Increment to 2 with a streak bonus of 14. *)
Example second_day_increments :
  user_stats (db_after_calls
                [mk_call "transaction_added" None (mkdate 2024 1 1) [];
                 mk_call "transaction_added" None (mkdate 2024 1 2) []]
                initial_db)
  = Some (mk_row 2 2 44 2 (Some "2024-01-02") false false).
Proof. reflexivity. Qed.

(** An action the table does not know and that is no custom tag. *)
Example app_loaded_is_rejected :
  fst (run_call (mk_call "app_loaded" None (mkdate 2024 1 1) []) initial_db)
  = Ok (Failure "Acción no válida: app_loaded").
Proof. reflexivity. Qed.

Example progress_of_250_points : round1 (progress_percentage 250) = (750 # 10)%Q.
Proof. reflexivity. Qed.

(* ================================================================== *)
(** ** Further properties of the stored state *)
(* ================================================================== *)

Lemma longest_step (today : date) (d d' : database) :
  undated_inv d -> store_change today d d' ->
  stored_longest d <= stored_longest d'.
Proof.
  intros Hinv Hstep. unfold stored_longest.
  destruct Hstep as [rows | ms | us n Hus Hn | Hno | us Hus Hno H1 | us Hus Hno H0 H1];
    cbn [user_stats]; try lia;
    unfold write_stats;
    try (rewrite Hus; cbn; lia).
  destruct (user_stats d) as [us |] eqn:Hus; [| rewrite Hus; lia].
  cbn. destruct (Hinv us Hus (Hno us eq_refl)) as (_ & -> & _). lia.
Qed.

(** X1. Over every call of [record_engagement] made on a store reachable
    from a new user's, whatever the store faults, the longest streak after
    the call is at least the longest streak before it. *)
Theorem longest_streak_never_decreases :
  forall (d : database) (c : call),
    reachable d -> stored_longest d <= stored_longest (db_after c d).
Proof.
  intros d c Hd.
  assert (H : undated_inv (db_after c d) /\
              stored_longest d <= stored_longest (db_after c d));
    [| apply H].
  apply (changes_invariant (c_today c)
           (fun d' => undated_inv d' /\ stored_longest d <= stored_longest d'))
    with (d := d).
  - intros d1 d2 [Hinv Hle] Hstep. split.
    + exact (undated_inv_step _ _ _ Hinv Hstep).
    + pose proof (longest_step _ _ _ Hinv Hstep). lia.
  - apply call_changes.
  - split; [apply undated_inv_reachable, Hd | lia].
Qed.

Lemma longest_streak_never_decreases_witness :
  let c1 := mk_call "transaction_added" None (mkdate 2024 1 1) [] in
  let c2 := mk_call "transaction_added" None (mkdate 2024 1 2) [] in
  let c3 := mk_call "goal_checked" None (mkdate 2024 1 9) [] in
  stored_longest (db_after c2 (db_after c1 initial_db)) = 2 /\
  2 <= stored_longest (db_after c3 (db_after c2 (db_after c1 initial_db))).
Proof.
  cbv zeta. split; [reflexivity |].
  change 2 with (stored_longest
                   (db_after (mk_call "transaction_added" None (mkdate 2024 1 2) [])
                      (db_after (mk_call "transaction_added" None (mkdate 2024 1 1) [])
                         initial_db))) at 1.
  apply longest_streak_never_decreases.
  do 2 apply reachable_call. apply reachable_initial.
Defined.

Lemma counters_inv_step (today : date) (d d' : database) :
  counters_inv d -> store_change today d d' -> counters_inv d'.
Proof.
  intros Hinv Hstep us' Hus'.
  destruct Hstep as [rows | ms | us n Hus Hn | Hno | us Hus Hno H1 | us Hus Hno H0 H1].
  - apply Hinv, Hus'.
  - apply Hinv, Hus'.
  - specialize (Hinv us Hus). written_counters Hus Hus'. lia.
  - unfold write_stats in Hus'.
    destruct (user_stats d) as [us |] eqn:Hus; [| apply Hinv; congruence].
    cbn [user_stats] in Hus'. injection Hus' as <-. cbn. lia.
  - specialize (Hinv us Hus). written_counters Hus Hus'. lia.
  - specialize (Hinv us Hus). written_counters Hus Hus'. lia.
Qed.

Lemma counters_inv_reachable (d : database) : reachable d -> counters_inv d.
Proof.
  induction 1 as [| d c _ IH].
  - intros us H. cbn in H. injection H as <-. cbn. lia.
  - eapply changes_invariant; [| apply call_changes | exact IH].
    intros d1 d2. apply counters_inv_step.
Qed.

(** X4. In every store reachable from a new user's, whatever the store
    faults, the four counters of the user's row are never negative, as the
    [CHECK] constraints of table [user_stats] require. *)
Theorem counters_are_never_negative :
  forall d : database,
    reachable d ->
    forall us, user_stats d = Some us ->
               0 <= current_streak us /\ 0 <= longest_streak us /\
               0 <= total_points us /\ 0 <= total_streak_days us.
Proof.
  intros d Hd us Hus.
  destruct (counters_inv_reachable d Hd us Hus) as (Hc & Hp & Hl). lia.
Qed.

Lemma counters_are_never_negative_witness :
  let c := mk_call "custom_note" None (mkdate 2024 2 29) [false; true] in
  let us := mk_row 0 0 0 0 None false false in
  user_stats (db_after c initial_db) = Some us /\ 0 <= total_points us.
Proof.
  cbv zeta. split; [vm_compute; reflexivity |].
  apply (counters_are_never_negative
           (db_after (mk_call "custom_note" None (mkdate 2024 2 29) [false; true])
                     initial_db)).
  - apply reachable_call, reachable_initial.
  - vm_compute. reflexivity.
Defined.

(** X5. In every store reachable from a new user's, whatever the store
    faults, the longest streak is at most the total of streak days. *)
Theorem longest_streak_at_most_streak_days :
  forall d : database,
    reachable d ->
    forall us, user_stats d = Some us ->
               longest_streak us <= total_streak_days us.
Proof.
  intros d Hd us Hus. apply (counters_inv_reachable d Hd us Hus).
Qed.

Lemma longest_streak_at_most_streak_days_witness :
  let c1 := mk_call "transaction_added" None (mkdate 2024 1 1) [] in
  let c2 := mk_call "transaction_added" None (mkdate 2024 1 2) [] in
  let us := mk_row 2 2 44 2 (Some "2024-01-02") false false in
  user_stats (db_after c2 (db_after c1 initial_db)) = Some us /\
  longest_streak us <= total_streak_days us.
Proof.
  cbv zeta. split; [vm_compute; reflexivity |].
  apply (longest_streak_at_most_streak_days
           (db_after (mk_call "transaction_added" None (mkdate 2024 1 2) [])
              (db_after (mk_call "transaction_added" None (mkdate 2024 1 1) [])
                 initial_db))).
  - do 2 apply reachable_call. apply reachable_initial.
  - vm_compute. reflexivity.
Defined.

Lemma streak_days_never_decrease_witness :
  let c1 := mk_call "transaction_added" None (mkdate 2024 1 1) [] in
  let c2 := mk_call "goal_checked" None (mkdate 2024 1 20) [false; false; true] in
  stored_streak_days (db_after c1 initial_db)
  <= stored_streak_days (db_after c2 (db_after c1 initial_db)).
Proof.
  cbv zeta. apply streak_days_never_decrease.
  apply reachable_call, reachable_initial.
Defined.

Lemma points_monotone_over_fault_free_calls_witness :
  let c1 := mk_call "transaction_added" None (mkdate 2024 1 1) [] in
  let c2 := mk_call "custom_note" (Some [("first_time", PyBool true)])
                    (mkdate 2024 1 2) [false; false] in
  let c3 := mk_call "goal_checked" None (mkdate 2024 1 9) [] in
  stored_points (db_after_calls [c1; c2] initial_db)
  <= stored_points (db_after c3 (db_after_calls [c1; c2] initial_db)).
Proof.
  cbv zeta. apply points_monotone_over_fault_free_calls.
  - repeat constructor.
  - reflexivity.
Defined.

(** *** Start-up and users without a row *)

(** X6. [_ensure_user_initialized] never changes the store: when the user
    has no row, the [UPDATE] of [_create_initial_user_stats] matches nothing
    and no row is created. On a store that does not fail it returns
    normally. *)
Theorem ensure_user_initialized_leaves_the_store :
  forall w : world,
    db (snd (_ensure_user_initialized w)) = db w /\
    (calm w -> fst (_ensure_user_initialized w) = Ok tt).
Proof.
  intros w. split.
  - unfold _ensure_user_initialized, try_catch, bind.
    pose proof (get_user_stats_effect w) as Hg.
    destruct (get_user_stats w) as [[[us |] | e] w1]; cbn [fst snd] in *.
    + apply Hg.
    + destruct Hg as [Hd [Ho | Ho]]; [discriminate |]. injection Ho as Hnone.
      unfold _create_initial_user_stats, bind.
      pose proof (update_user_stats_effect (mk_stats 0 0 0 0 None) w1) as Hu.
      destruct (update_user_stats (mk_stats 0 0 0 0 None) w1) as [[b | e] w2];
        cbn [fst snd] in *.
      * destruct Hu as [[Ho _] | [_ Hw]]; [discriminate |].
        cbn. rewrite Hw. unfold write_stats. rewrite Hd, <- Hnone. reflexivity.
      * destruct Hu as [[_ Hw] | [Ho _]]; [| discriminate]. cbn. congruence.
    + apply Hg.
  - intros Hcalm.
    assert (Hclean : clean (fun _ => True) _ensure_user_initialized (fun _ _ => True)).
    { unfold _ensure_user_initialized. apply clean_try_catch.
      eapply clean_bind with (Q1 := fun _ _ => True).
      - apply clean_transaction. auto.
      - intros [us |]; [apply clean_ret; auto |].
        unfold _create_initial_user_stats.
        eapply clean_bind with (Q1 := fun _ _ => True).
        + apply clean_transaction. auto.
        + intros ?. apply clean_ret. auto. }
    destruct (Hclean w Hcalm I) as ([] & w' & Hrun & _). rewrite Hrun. reflexivity.
Qed.

Lemma missing_row_step (today : date) (d d' : database) :
  user_stats d = None -> store_change today d d' -> user_stats d' = None.
Proof.
  intros Hnone Hstep.
  destruct Hstep as [rows | ms | us n Hus Hn | Hno | us Hus Hno H1 | us Hus Hno H0 H1];
    try exact Hnone; try congruence.
  unfold write_stats. rewrite Hnone. exact Hnone.
Qed.

Lemma start_without_row (today : date) (d : database) :
  user_stats d = None ->
  _process_streak_update today (mk_world d []) =
  (Ok (mk_streak_result true 1 "🎉 ¡Comienza tu racha financiera!"), mk_world d []).
Proof.
  intros Hnone. unfold _process_streak_update, get_user_stats.
  rewrite (bind_eq _ _ _ _ _ (transaction_fault_free _ d)). cbn [fst snd].
  rewrite Hnone. unfold _start_new_streak, try_catch, update_user_stats.
  rewrite (bind_eq _ _ _ _ _ (transaction_fault_free _ d)). cbn [fst snd].
  rewrite Hnone. reflexivity.
Qed.

(** X7. For a user who has no row in [user_stats], no call of
    [record_engagement] creates one, whatever the store faults; and a call
    with a valid action that meets no fault still answers with success and a
    started streak of 1. *)
Theorem missing_row_is_never_created :
  forall (d : database) (c : call),
    user_stats d = None ->
    user_stats (db_after c d) = None /\
    (c_faults c = [] -> _is_valid_action (c_action c) = true ->
     exists ps mr lr,
       fst (run_call c d) =
       Ok (Success (c_action c)
             (mk_streak_result true 1 "🎉 ¡Comienza tu racha financiera!")
             ps mr lr)).
Proof.
  intros d c Hnone. split.
  - apply (changes_invariant (c_today c) (fun d' => user_stats d' = None))
      with (d := d); [| apply call_changes | exact Hnone].
    intros d1 d2. apply missing_row_step.
  - intros Hf Hv. unfold run_call. rewrite Hf.
    destruct (record_engagement_outcome (c_action c) (c_metadata c) (c_today c)
                (mk_world d []))
      as [[Hbad _] | [[_ (rest & Hr & _)] |
          [(_ & _ & rest & Hr & _) | (_ & _ & _ & sr & ps & mr & lr & Hsr & Hrun)]]].
    + congruence.
    + discriminate Hr.
    + discriminate Hr.
    + unfold after_ledger in Hsr. cbn [db faults tl] in Hsr.
      rewrite start_without_row in Hsr by exact Hnone.
      injection Hsr as <-. exists ps, mr, lr. exact Hrun.
Qed.

Lemma missing_row_is_never_created_witness :
  let d := mk_db None [] [] in
  let c := mk_call "dashboard_viewed" None (mkdate 2024 3 1) [] in
  user_stats (db_after c d) = None.
Proof.
  cbv zeta.
  exact (proj1 (missing_row_is_never_created (mk_db None [] [])
                  (mk_call "dashboard_viewed" None (mkdate 2024 3 1) []) eq_refl)).
Defined.

(** *** The streak protections *)

Lemma protections_step (today : date) (d0 d d' : database) :
  user_stats d = user_stats d0 \/ protections_reset d ->
  store_change today d d' ->
  user_stats d' = user_stats d0 \/ protections_reset d'.
Proof.
  intros Hd Hstep.
  assert (Hw : forall sd, user_stats (write_stats sd d) = user_stats d0 \/
                          protections_reset (write_stats sd d)).
  { intros sd. unfold write_stats. destruct (user_stats d) eqn:Hus.
    - right. intros us' E. cbn in E. injection E as <-. auto.
    - rewrite <- Hus in Hd. exact Hd. }
  destruct Hstep; try apply Hw; exact Hd.
Qed.

Lemma clean_protections__add_points (P : database -> Prop) (points : Z) :
  clean P (_add_points points) (fun _ d => protections_reset d).
Proof.
  unfold _add_points. apply clean_try_catch.
  eapply clean_bind; [apply clean_get_user_stats |].
  intros [us |].
  - eapply clean_bind with (Q1 := fun _ d => protections_reset d);
      [| intros ?; apply clean_ret; auto].
    apply clean_transaction. cbn [fst snd]. intros d [_ Hus].
    rewrite <- Hus. intros us' E. cbn in E. injection E as <-. auto.
  - apply clean_ret. intros d [_ Hus] us' E. congruence.
Qed.

Lemma clean_protections_record_engagement (action : string)
      (metadata : option pydict) (today : date) :
  _is_valid_action action = true ->
  clean (fun _ => True) (record_engagement action metadata today)
        (fun _ d => protections_reset d).
Proof.
  intros Hv. unfold record_engagement. apply clean_try_catch.
  rewrite Hv. cbn [negb].
  assert (Hread : clean protections_reset _get_current_points
                        (fun _ d => protections_reset d)).
  { unfold _get_current_points. apply clean_try_catch.
    eapply clean_bind; [apply clean_get_user_stats |].
    intros a. apply clean_ret. intros d [H _]. exact H. }
  eapply clean_bind with (Q1 := fun _ _ => True).
  { apply clean_transaction. auto. }
  intros ?. eapply clean_bind with (Q1 := fun _ _ => True).
  { unfold _process_streak_update.
    eapply clean_bind with (Q1 := fun _ _ => True);
      [apply clean_transaction; auto |].
    intros [us |]; [| apply clean_guarded_update; auto].
    destruct (no_last_activity us); [apply clean_guarded_update; auto |].
    destruct (_ =? 0); [apply clean_ret; auto |].
    destruct (_ =? 1); apply clean_guarded_update; auto. }
  intros sr. eapply clean_bind with (Q1 := fun _ d => protections_reset d).
  { unfold _calculate_points.
    eapply clean_bind; [apply clean_protections__add_points |].
    intros ?. apply clean_ret. auto. }
  intros pr. eapply clean_bind with (Q1 := fun _ d => protections_reset d).
  { unfold _check_milestones. apply clean_try_catch.
    induction STREAK_MILESTONES as [| [days info] rest IH]; cbn [milestones_loop].
    - apply clean_ret. auto.
    - destruct (_ =? days); [| exact IH].
      eapply clean_bind; [apply clean_protections__add_points |]. intros ?.
      eapply clean_bind with (Q1 := fun _ d => protections_reset d);
        [| intros ?; apply clean_ret; auto].
      apply clean_try_catch.
      eapply clean_bind with (Q1 := fun _ d => protections_reset d);
        [| intros ?; apply clean_ret; auto].
      apply clean_transaction. cbn. auto. }
  intros mr. eapply clean_bind with (Q1 := fun _ d => protections_reset d).
  { unfold _check_level_progression.
    eapply clean_bind; [apply Hread |]. intros cp. apply clean_ret. auto. }
  intros lr. unfold _consolidate_results.
  eapply clean_bind; [apply Hread |]. intros total. apply clean_ret. auto.
Qed.

(** X8. Every write of the user's row clears [freeze_used_this_week] and
    [recovery_used_this_month]: after any call the row is the one found or
    both flags are off, and after a call with a valid action that meets no
    store fault both flags are off, so [_check_streak_protection] reports a
    protection as available. *)
Theorem engagement_resets_the_protections :
  forall (d : database) (c : call),
    (user_stats (db_after c d) = user_stats d \/
     protections_reset (db_after c d)) /\
    (fault_free c = true -> _is_valid_action (c_action c) = true ->
     forall us, user_stats (db_after c d) = Some us ->
                _check_streak_protection us = true /\
                recovery_used_this_month us = false).
Proof.
  intros d c. split.
  - apply (changes_invariant (c_today c)
             (fun d' => user_stats d' = user_stats d \/ protections_reset d'))
      with (d := d); [| apply call_changes | auto].
    intros d1 d2. apply protections_step.
  - intros Hf Hv us Hus.
    destruct (clean_protections_record_engagement (c_action c) (c_metadata c)
                (c_today c) Hv (mk_world d (c_faults c)) Hf I)
      as (r & w' & Hrun & _ & Hreset).
    unfold db_after, run_call in Hus. rewrite Hrun in Hus. cbn [snd] in Hus.
    destruct (Hreset us Hus) as [H1 H2].
    unfold _check_streak_protection. rewrite H1. auto.
Qed.

Lemma engagement_resets_the_protections_witness :
  let d := mk_db (Some (mk_row 2 4 70 6 (Some "2024-01-05") true true)) [] [] in
  let c := mk_call "goal_checked" None (mkdate 2024 1 5) [] in
  exists us, user_stats (db_after c d) = Some us /\
             _check_streak_protection us = true /\
             recovery_used_this_month us = false.
Proof.
  cbv zeta. eexists. split; [vm_compute; reflexivity |].
  exact (proj2 (engagement_resets_the_protections
                  (mk_db (Some (mk_row 2 4 70 6 (Some "2024-01-05") true true)) [] [])
                  (mk_call "goal_checked" None (mkdate 2024 1 5) []))
               eq_refl eq_refl _ eq_refl).
Defined.

(** *** Edge cases of the streak evaluator *)

(** X9. A stored date that lies after today gives a negative day
    difference, which is neither 0 nor 1: on a store that does not fail the
    evaluator Breaks the streak (streak 0, the other counters kept, date set
    to today) and reports the negative number of days. *)
Theorem future_date_breaks_the_streak :
  forall (d : database) (us : user_stats_row) (s : string) (last today : date),
    user_stats d = Some us ->
    last_activity_date us = Some s ->
    strptime_ymd s = Some last ->
    days_between today last < 0 ->
    _process_streak_update today (mk_world d []) =
    (Ok (mk_streak_result true 0
           ("💔 Racha rota después de " ++ dec (days_between today last)
              ++ " días de inactividad")),
     mk_world (mk_db (Some (mk_row 0 (longest_streak us) (total_points us)
                                   (total_streak_days us)
                                   (Some (isoformat today)) false false))
                     (streak_milestones d) (daily_engagement d)) []).
Proof.
  intros d us s last today Hus Hs Hp Hneg.
  rewrite (_process_streak_update_fault_free today d us Hus).
  rewrite (no_last_activity_of_parsed us s last Hs Hp).
  rewrite (days_since_last_of_parsed today us s last Hs Hp).
  destruct (Z.eqb_spec (days_between today last) 0) as [E | _]; [lia |].
  destruct (Z.eqb_spec (days_between today last) 1) as [E | _]; [lia |].
  unfold write_stats. rewrite Hus. reflexivity.
Qed.

Lemma future_date_breaks_the_streak_witness :
  fst (_process_streak_update (mkdate 2024 1 1)
         (mk_world (mk_db (Some (mk_row 5 9 300 20 (Some "2024-01-03") false false))
                          [] []) []))
  = Ok (mk_streak_result true 0 "💔 Racha rota después de -2 días de inactividad").
Proof.
  rewrite (future_date_breaks_the_streak
             (mk_db (Some (mk_row 5 9 300 20 (Some "2024-01-03") false false)) [] [])
             (mk_row 5 9 300 20 (Some "2024-01-03") false false)
             "2024-01-03" (mkdate 2024 1 3) (mkdate 2024 1 1)
             eq_refl eq_refl eq_refl eq_refl).
  reflexivity.
Defined.




(** X13. The streak step announces every change it makes: when
    [_process_streak_update] raises, or answers with [streak_updated] false,
    the store is exactly as it was. *)
Theorem unannounced_streak_step_changes_nothing :
  forall (today : date) (w : world),
    (forall sr, fst (_process_streak_update today w) = Ok sr ->
                streak_updated sr = false) ->
    db (snd (_process_streak_update today w)) = db w.
Proof.
  intros today w Hquiet.
  destruct (_process_streak_update_effect today w) as [[_ Hd] | [[sr Hsr] Heff]];
    [exact Hd |].
  specialize (Hquiet sr Hsr).
  assert (Hg : forall sd r r',
             streak_updated r = true ->
             guarded_write sd r r' (db w) (fst (_process_streak_update today w))
                           (db (snd (_process_streak_update today w))) ->
             db (snd (_process_streak_update today w)) = db w).
  { intros sd r r' Hr [[_ Hd] | [Ho _]]; [exact Hd |].
    rewrite Hsr in Ho. injection Ho as ->. congruence. }
  unfold streak_effect in Heff.
  destruct (user_stats (db w)) as [us |].
  - destruct (no_last_activity us);
      [eapply Hg; [| exact Heff]; reflexivity |].
    destruct (days_since_last today us =? 0); [apply Heff |].
    destruct (days_since_last today us =? 1);
      (eapply Hg; [| exact Heff]; reflexivity).
  - eapply Hg; [| exact Heff]; reflexivity.
Qed.

Lemma unannounced_streak_step_changes_nothing_witness :
  let w := mk_world (mk_db (Some (mk_row 1 1 20 1 (Some "2024-01-01") false false))
                           [] []) [false; true] in
  db (snd (_process_streak_update (mkdate 2024 1 2) w)) = db w.
Proof.
  cbv zeta. apply unannounced_streak_step_changes_nothing.
  intros sr H. vm_compute in H. injection H as <-. reflexivity.
Defined.

(* ================================================================== *)
(** ** Levels and points, for every input *)
(* ================================================================== *)

(** X11. The level never drops as the points grow, and it is always one of
    the ten tiers, for negative totals too. *)
Theorem level_grows_with_points :
  forall p q : Z,
    p <= q ->
    0 <= _calculate_level p /\
    _calculate_level p <= _calculate_level q /\
    _calculate_level q <= max_level.
Proof.
  intros p q Hpq. split; [| split].
  - destruct (_calculate_level_cases p)
      as [H|[H|[H|[H|[H|[H|[H|[H|[H|H]]]]]]]]]; lia.
  - apply _calculate_level_monotone, Hpq.
  - change max_level with 9.
    destruct (_calculate_level_cases q)
      as [H|[H|[H|[H|[H|[H|[H|[H|[H|H]]]]]]]]]; lia.
Qed.

Lemma level_grows_with_points_witness :
  _calculate_level (-5) <= _calculate_level 4500.
Proof. apply (level_grows_with_points (-5) 4500). lia. Defined.

Lemma config_get_at_most_25 (action : string) :
  config_get POINTS_CONFIG action 5 <= 25.
Proof.
  unfold POINTS_CONFIG. cbn [config_get].
  repeat match goal with
         | |- context [String.eqb ?a ?b] => destruct (String.eqb a b)
         end; lia.
Qed.

(** X12. Whatever the action, the metadata and the day, the points
    calculator answers, and it awards between 3 and 25 base points, between
    0 and 35 bonus points, and their sum, between 3 and 60 points. *)
Theorem action_points_are_bounded :
  forall (action : string) (metadata : option pydict) (today : date) (w : world),
    exists pr,
      fst (_calculate_points action metadata today w) = Ok pr /\
      3 <= pr_base_points pr <= 25 /\
      0 <= pr_bonuses pr <= 35 /\
      pr_total_points pr = pr_base_points pr + pr_bonuses pr /\
      3 <= pr_total_points pr <= 60.
Proof.
  intros action metadata today w.
  eexists. split; [apply _calculate_points_answers |].
  cbn [pr_base_points pr_bonuses pr_total_points].
  pose proof (config_get_at_least_3 action).
  pose proof (config_get_at_most_25 action).
  pose proof (_calculate_bonuses_nonneg metadata today).
  assert (_calculate_bonuses metadata today <= 35).
  { rewrite _calculate_bonuses_sum.
    destruct (flag metadata "first_time"), (flag metadata "consistent_week"),
      (has_entries metadata && is_weekend today); lia. }
  lia.
Qed.

(* ================================================================== *)
(** ** The stored date is read back *)
(* ================================================================== *)

Lemma range_forallb (f : Z -> bool) (n : Z) :
  forallb f (map Z.of_nat (seq 1 (Z.to_nat n))) = true ->
  forall z, 1 <= z <= n -> f z = true.
Proof.
  intros Hall z Hz. rewrite forallb_forall in Hall. apply Hall.
  rewrite <- (Z2Nat.id z) by lia. apply in_map, in_seq. lia.
Qed.

Lemma year_field_read_back (y : Z) : 1 <= y <= 9999 -> year_field_ok y = true.
Proof. apply range_forallb. vm_compute. reflexivity. Qed.

Lemma month_field_read_back (m : Z) : 1 <= m <= 12 -> month_field_ok m = true.
Proof. apply range_forallb. vm_compute. reflexivity. Qed.

Lemma day_field_read_back (dd : Z) : 1 <= dd <= 31 -> day_field_ok dd = true.
Proof. apply range_forallb. vm_compute. reflexivity. Qed.

Lemma option_is_true (o : option Z) (v : Z) : option_is o v = true -> o = Some v.
Proof.
  destruct o as [x |]; cbn; [| discriminate].
  intros H. apply Z.eqb_eq in H. congruence.
Qed.

Lemma split_hyphen_app (m rest : string) :
  no_hyphen m = true -> split_hyphen (m ++ String "-" rest) = Some (m, rest).
Proof.
  induction m as [| c m IH]; cbn [no_hyphen append split_hyphen].
  - intros _. reflexivity.
  - intros H. apply andb_true_iff in H. destruct H as [Hc Hm].
    apply negb_true_iff in Hc. rewrite Hc, (IH Hm). reflexivity.
Qed.

Lemma strptime_ymd_fields (ys ms ds : string) (y m dd : Z) :
  four_digits ys = Some y ->
  no_hyphen ms = true ->
  two_digit_field false 12 ms = Some m ->
  two_digit_field true 31 ds = Some dd ->
  strptime_ymd (ys ++ String "-" (ms ++ String "-" ds)) =
  if valid (mkdate y m dd) then Some (mkdate y m dd) else None.
Proof.
  intros Hy Hno Hm Hd.
  destruct ys as [| a [| b [| c [| e [| x ys]]]]]; try discriminate Hy.
  unfold four_digits in Hy. cbn [append]. unfold strptime_ymd.
  destruct (digit_val a) as [va |]; [| discriminate Hy].
  destruct (digit_val b) as [vb |]; [| discriminate Hy].
  destruct (digit_val c) as [vc |]; [| discriminate Hy].
  destruct (digit_val e) as [ve |]; [| discriminate Hy].
  assert (Hy' : 1000 * va + 100 * vb + 10 * vc + ve = y)
    by (injection Hy as Hy'; exact Hy').
  change (Ascii.eqb "-" "-") with true. cbv iota.
  rewrite (split_hyphen_app ms ds Hno), Hm, Hd, Hy'. reflexivity.
Qed.

Lemma days_in_month_at_most_31 (y m : Z) : days_in_month y m <= 31.
Proof.
  unfold days_in_month.
  destruct (m =? 2); [destruct (is_leap y); lia |].
  destruct ((m =? 4) || (m =? 6) || (m =? 9) || (m =? 11)); lia.
Qed.

Lemma strptime_isoformat (d : date) :
  valid d = true -> strptime_ymd (isoformat d) = Some d.
Proof.
  intros Hvalid.
  destruct d as [y m dd]. unfold valid in Hvalid. cbn [year month day] in Hvalid.
  pose proof Hvalid as Hv.
  repeat (apply andb_true_iff in Hv; destruct Hv as [Hv ?]).
  repeat match goal with H : (_ <=? _) = true |- _ => apply Z.leb_le in H end.
  apply Z.leb_le in Hv.
  pose proof (days_in_month_at_most_31 y m).
  pose proof (year_field_read_back y ltac:(lia)) as Hy.
  pose proof (month_field_read_back m ltac:(lia)) as Hm.
  pose proof (day_field_read_back dd ltac:(lia)) as Hd.
  unfold year_field_ok in Hy. unfold month_field_ok in Hm. unfold day_field_ok in Hd.
  apply andb_true_iff in Hm. destruct Hm as [Hno Hm].
  unfold isoformat. cbn [year month day].
  change ("-" ++ zero_pad 2 m ++ "-" ++ zero_pad 2 dd)
    with (String "-" (zero_pad 2 m ++ String "-" (zero_pad 2 dd))).
  rewrite (strptime_ymd_fields _ _ _ y m dd (option_is_true _ _ Hy) Hno
             (option_is_true _ _ Hm) (option_is_true _ _ Hd)).
  unfold valid. cbn [year month day]. rewrite Hvalid. reflexivity.
Qed.

(** X14. The text that the streak transitions store for a day,
    [today.isoformat()], is read back by [_parse_date] as that same day, for
    every day the [date] type can hold: the fallback to today's date is never
    taken for a date the service wrote. *)
Theorem written_date_is_read_back :
  forall d : date,
    valid d = true ->
    strptime_ymd (isoformat d) = Some d /\
    forall today, _parse_date today (isoformat d) = d.
Proof.
  intros d Hvalid. pose proof (strptime_isoformat d Hvalid) as Hparse.
  split; [exact Hparse |].
  intros today. unfold _parse_date. rewrite Hparse. reflexivity.
Qed.

Lemma written_date_is_read_back_witness :
  strptime_ymd (isoformat (mkdate 2024 2 29)) = Some (mkdate 2024 2 29).
Proof. exact (proj1 (written_date_is_read_back (mkdate 2024 2 29) eq_refl)). Defined.

(* ================================================================== *)
(** ** A call on a store that does not fail, in closed form *)
(* ================================================================== *)

Lemma _process_streak_update_stepped (today : date) (d : database)
      (us : user_stats_row) :
  user_stats d = Some us ->
  _process_streak_update today (mk_world d []) =
  (Ok (stepped_result today us), mk_world (stepped_db today us d) []).
Proof.
  intros Hus. rewrite (_process_streak_update_fault_free today d us Hus).
  unfold stepped_result, stepped_db.
  destruct (no_last_activity us); [reflexivity |].
  destruct (days_since_last today us =? 0); [reflexivity |].
  destruct (days_since_last today us =? 1); reflexivity.
Qed.

Lemma stepped_db_row (today : date) (d : database) (us : user_stats_row) :
  user_stats d = Some us ->
  user_stats (stepped_db today us d) = Some (stepped_row today us) /\
  streak_milestones (stepped_db today us d) = streak_milestones d /\
  daily_engagement (stepped_db today us d) = daily_engagement d.
Proof.
  intros Hus. unfold stepped_db, stepped_row, write_stats. rewrite Hus.
  destruct (no_last_activity us); [cbn; auto |].
  destruct (days_since_last today us =? 0); [auto |].
  destruct (days_since_last today us =? 1); cbn; auto.
Qed.

Lemma stepped_result_streak (today : date) (us : user_stats_row) :
  sr_current_streak (stepped_result today us) = current_streak (stepped_row today us).
Proof.
  unfold stepped_result, stepped_row.
  destruct (no_last_activity us); [reflexivity |].
  destruct (days_since_last today us =? 0); [reflexivity |].
  destruct (days_since_last today us =? 1); reflexivity.
Qed.

Lemma _get_current_points_fault_free (d : database) (us : user_stats_row) :
  user_stats d = Some us ->
  _get_current_points (mk_world d []) = (Ok (total_points us), mk_world d []).
Proof.
  intros Hus. unfold _get_current_points, try_catch, get_user_stats.
  rewrite (bind_eq _ _ _ _ _ (transaction_fault_free _ d)). cbn [fst snd].
  rewrite Hus. reflexivity.
Qed.

(** The milestone step on a store that does not fail. *)
Lemma _check_milestones_fault_free (c : Z) (d : database) (us : user_stats_row) :
  user_stats d = Some us ->
  exists mr d',
    _check_milestones c (mk_world d []) = (Ok mr, mk_world d' []) /\
    points_earned mr = milestone_points c /\
    user_stats d' =
      Some (mk_row (current_streak us) (longest_streak us)
                   (total_points us + milestone_points c)
                   (total_streak_days us) (last_activity_date us)
                   (if achieved mr then false else freeze_used_this_week us)
                   (if achieved mr then false else recovery_used_this_month us)) /\
    daily_engagement d' = daily_engagement d.
Proof.
  intros Hus. unfold _check_milestones, try_catch, milestone_points.
  destruct (lookup_milestone STREAK_MILESTONES c) as [[days info] |] eqn:Hlook.
  - rewrite (milestones_loop_fault_free STREAK_MILESTONES c d us days info Hus Hlook).
    eexists. eexists. split; [reflexivity |]. cbn. auto.
  - pose proof (milestones_loop_result STREAK_MILESTONES c (mk_world d [])) as H.
    rewrite Hlook in H. rewrite H.
    eexists. eexists. split; [reflexivity |]. cbn. split; [reflexivity |].
    split; [| reflexivity]. rewrite Hus. destruct us. cbn.
    rewrite Z.add_0_r. reflexivity.
Qed.

(** A call with a valid action on a store that does not fail: what it
    answers and the store it leaves. *)
Lemma fault_free_call_run (d : database) (us : user_stats_row) (c : call) :
  user_stats d = Some us ->
  _is_valid_action (c_action c) = true ->
  c_faults c = [] ->
  exists mr lr d',
    run_call c d =
    (Ok (Success (c_action c) (stepped_result (c_today c) us)
           (mk_points_summary
              (action_points (c_action c) (c_metadata c) (c_today c))
              (config_get POINTS_CONFIG (c_action c) 5)
              (_calculate_bonuses (c_metadata c) (c_today c))
              (total_points (row_after_call c us)))
           mr lr),
     mk_world d' []) /\
    user_stats d' = Some (row_after_call c us) /\
    points_earned mr = milestone_points (current_streak (stepped_row (c_today c) us)) /\
    current_level lr = _calculate_level (total_points (row_after_call c us)) /\
    daily_engagement d' =
      upsert_engagement (isoformat (c_today c)) (c_action c) (daily_engagement d).
Proof.
  intros Hus Hv Hf. unfold run_call, record_engagement, try_catch.
  rewrite Hv, Hf. cbn [negb]. unfold record_daily_engagement.
  rewrite (bind_eq _ _ _ _ _ (transaction_fault_free _ d)). cbn [fst snd].
  set (d1 := mk_db (user_stats d) (streak_milestones d) _).
  assert (Hus1 : user_stats d1 = Some us) by exact Hus.
  rewrite (bind_eq _ _ _ _ _ (_process_streak_update_stepped (c_today c) d1 us Hus1)).
  destruct (stepped_db_row (c_today c) d1 us Hus1) as (Hus2 & _ & Hled2).
  set (r := stepped_row (c_today c) us) in *.
  set (d2 := stepped_db (c_today c) us d1) in *.
  unfold _calculate_points. fold (action_points (c_action c) (c_metadata c) (c_today c)).
  set (n := action_points (c_action c) (c_metadata c) (c_today c)).
  rewrite (bind_eq _ _ _ _ _
             (bind_eq _ _ _ _ _ (_add_points_fault_free n d2 r Hus2))).
  cbn [ret]. rewrite stepped_result_streak. fold r.
  set (d3 := write_stats (with_points r n) d2).
  assert (Hus3 : user_stats d3 =
                 Some (mk_row (current_streak r) (longest_streak r)
                              (total_points r + n) (total_streak_days r)
                              (last_activity_date r) false false)).
  { subst d3. unfold write_stats. rewrite Hus2. reflexivity. }
  assert (Hled3 : daily_engagement d3 = daily_engagement d2).
  { subst d3. unfold write_stats. rewrite Hus2. reflexivity. }
  destruct (_check_milestones_fault_free (current_streak r) d3 _ Hus3)
    as (mr & d4 & Hrun4 & Hpts4 & Hus4 & Hled4).
  rewrite (bind_eq _ _ _ _ _ Hrun4).
  cbn [current_streak longest_streak total_points total_streak_days
       last_activity_date freeze_used_this_week recovery_used_this_month] in Hus4.
  assert (Hrow : user_stats d4 = Some (row_after_call c us)).
  { rewrite Hus4. unfold row_after_call. fold r n.
    destruct (achieved mr); reflexivity. }
  unfold _check_level_progression.
  rewrite (bind_eq _ _ _ _ _
             (bind_eq _ _ _ _ _ (_get_current_points_fault_free d4 _ Hrow))).
  cbn [ret]. unfold _consolidate_results.
  rewrite (bind_eq _ _ _ _ _ (_get_current_points_fault_free d4 _ Hrow)).
  cbn [ret pr_total_points pr_base_points pr_bonuses].
  eexists. eexists. exists d4. split; [reflexivity |].
  split; [exact Hrow |]. split; [exact Hpts4 |]. split; [reflexivity |].
  rewrite Hled4, Hled3, Hled2. reflexivity.
Qed.



Lemma date_after_call (c : call) (us : user_stats_row) :
  date_readable us ->
  valid (c_today c) = true ->
  no_last_activity (row_after_call c us) = false /\
  forall today,
    days_since_last today (row_after_call c us) = days_between today (c_today c).
Proof.
  intros Hread Hvalid.
  assert (Hwritten : forall r,
             last_activity_date r = Some (isoformat (c_today c)) ->
             no_last_activity r = false /\
             forall today, days_since_last today r = days_between today (c_today c)).
  { intros r Hr. split.
    - unfold no_last_activity. rewrite Hr. apply isoformat_not_empty.
    - intros today. unfold days_since_last, last_activity_text, _parse_date.
      rewrite Hr, (strptime_isoformat _ Hvalid). reflexivity. }
  assert (Hsame : forall r r',
             last_activity_date r' = last_activity_date r ->
             no_last_activity r' = no_last_activity r /\
             forall today, days_since_last today r' = days_since_last today r).
  { intros r r' E. unfold no_last_activity, days_since_last, last_activity_text.
    rewrite E. auto. }
  destruct (Hsame (stepped_row (c_today c) us) (row_after_call c us) eq_refl)
    as [Hno Hdays].
  rewrite Hno. setoid_rewrite Hdays. clear Hno Hdays Hsame.
  unfold stepped_row.
  destruct (no_last_activity us) eqn:Hnl; [apply Hwritten; reflexivity |].
  destruct (Z.eqb_spec (days_since_last (c_today c) us) 0) as [H0 | _].
  - split; [exact Hnl |]. intros today.
    destruct Hread as [Hbad | (s & last & Hs & Hp)]; [congruence |].
    rewrite (days_since_last_of_parsed today us s last Hs Hp).
    rewrite (days_since_last_of_parsed (c_today c) us s last Hs Hp) in H0.
    unfold days_between in *. lia.
  - destruct (days_since_last (c_today c) us =? 1); apply Hwritten; reflexivity.
Qed.

(** X16. Two calls in a row, with valid actions and no store fault, the
    first on a day [t1] the [date] type can hold and with a stored date that
    is absent or readable: the second call, made [k] days after the first,
    leaves the streak of the first call when [k = 0], that streak plus one
    when [k = 1], and 0 for every other [k]. *)
Theorem second_call_follows_the_day_difference :
  forall (d : database) (us : user_stats_row) (c1 c2 : call),
    user_stats d = Some us ->
    date_readable us ->
    valid (c_today c1) = true ->
    _is_valid_action (c_action c1) = true ->
    _is_valid_action (c_action c2) = true ->
    c_faults c1 = [] ->
    c_faults c2 = [] ->
    let k := days_between (c_today c2) (c_today c1) in
    let s1 := stored_streak (db_after c1 d) in
    let s2 := stored_streak (db_after c2 (db_after c1 d)) in
    (k = 0 -> s2 = s1) /\
    (k = 1 -> s2 = s1 + 1) /\
    (k <> 0 -> k <> 1 -> s2 = 0).
Proof.
  intros d us c1 c2 Hus Hread Hvalid Hv1 Hv2 Hf1 Hf2 k s1 s2.
  destruct (fault_free_call_run d us c1 Hus Hv1 Hf1)
    as (mr1 & lr1 & d1 & Hrun1 & Hrow1 & _).
  assert (Hd1 : db_after c1 d = d1) by (unfold db_after; rewrite Hrun1; reflexivity).
  destruct (fault_free_call_run d1 _ c2 Hrow1 Hv2 Hf2)
    as (mr2 & lr2 & d2 & Hrun2 & Hrow2 & _).
  assert (Hd2 : db_after c2 d1 = d2) by (unfold db_after; rewrite Hrun2; reflexivity).
  subst s1 s2. rewrite Hd1, Hd2. unfold stored_streak. rewrite Hrow1, Hrow2.
  destruct (date_after_call c1 us Hread Hvalid) as [Hno Hdays].
  set (r1 := row_after_call c1 us) in *.
  assert (Hcur : current_streak (row_after_call c2 r1) =
                 if k =? 0 then current_streak r1
                 else if k =? 1 then current_streak r1 + 1 else 0).
  { unfold row_after_call. cbn [current_streak]. unfold stepped_row.
    rewrite Hno, (Hdays (c_today c2)). fold k.
    destruct (k =? 0); [reflexivity |]. destruct (k =? 1); reflexivity. }
  rewrite Hcur.
  destruct (Z.eqb_spec k 0) as [K0 | K0]; [repeat split; intros; lia |].
  destruct (Z.eqb_spec k 1) as [K1 | K1]; repeat split; intros; lia.
Qed.

Lemma second_call_follows_the_day_difference_witness :
  let c1 := mk_call "transaction_added" None (mkdate 2023 12 31) [] in
  let c2 := mk_call "dashboard_viewed" None (mkdate 2024 1 1) [] in
  stored_streak (db_after c2 (db_after c1 initial_db))
  = stored_streak (db_after c1 initial_db) + 1.
Proof.
  cbv zeta.
  apply (second_call_follows_the_day_difference initial_db initial_row
           (mk_call "transaction_added" None (mkdate 2023 12 31) [])
           (mk_call "dashboard_viewed" None (mkdate 2024 1 1) [])
           eq_refl (or_introl eq_refl) eq_refl eq_refl eq_refl eq_refl eq_refl).
  reflexivity.
Defined.

(* ================================================================== *)
(** ** The daily ledger and the milestone records *)
(* ================================================================== *)

Lemma eta_database (d : database) :
  mk_db (user_stats d) (streak_milestones d) (daily_engagement d) = d.
Proof. destruct d. reflexivity. Qed.

Lemma tracked_of_effect {A} (m : M A)
      (R : database -> outcome A -> database -> Prop) :
  effect m R ->
  (forall d o d', R d o d' -> d' = d \/ table_write d d') ->
  tracked m.
Proof.
  intros Hm HR d0 w Hw.
  destruct (HR _ _ _ (Hm w)) as [-> | Hstep]; [exact Hw |].
  eapply table_writes_more; eassumption.
Qed.

Lemma tracked_ret {A} (a : A) : tracked (ret a).
Proof. intros d0 w Hw. exact Hw. Qed.

Lemma tracked_bind {A B} (m : M A) (k : A -> M B) :
  tracked m -> (forall a, tracked (k a)) -> tracked (bind m k).
Proof.
  intros Hm Hk d0.
  apply (hoare_bind _ m k (fun _ d => table_writes d0 d));
    [apply Hm | intros a; apply Hk | auto].
Qed.

Lemma tracked_try_catch {A} (m : M A) (h : exn -> M A) :
  tracked m -> (forall e, tracked (h e)) -> tracked (try_catch m h).
Proof.
  intros Hm Hh d0.
  apply (hoare_try_catch _ m h (fun _ d => table_writes d0 d));
    [apply Hm | auto | intros e; apply Hh].
Qed.

Lemma write_stats_is_a_row_write (sd : stats_data) (d : database) :
  write_stats sd d = d \/ table_write d (write_stats sd d).
Proof.
  unfold write_stats. destruct (user_stats d); [right; apply write_row | auto].
Qed.

Lemma tracked_get_user_stats : tracked get_user_stats.
Proof.
  eapply tracked_of_effect; [apply get_user_stats_effect |].
  cbn. intros d o d' [-> _]. auto.
Qed.

Lemma tracked_update_user_stats (sd : stats_data) : tracked (update_user_stats sd).
Proof.
  eapply tracked_of_effect; [apply update_user_stats_effect |].
  cbn. intros d o d' [[_ ->] | [_ ->]]; [auto |].
  apply write_stats_is_a_row_write.
Qed.

Lemma tracked_guarded_update (sd : stats_data) (r r' : streak_result) :
  tracked (try_catch (update_user_stats sd ;;; ret r) (fun _ => ret r')).
Proof.
  apply tracked_try_catch; [| intros ?; apply tracked_ret].
  apply tracked_bind; [apply tracked_update_user_stats |].
  intros ?. apply tracked_ret.
Qed.

Lemma tracked__add_points (points : Z) : tracked (_add_points points).
Proof.
  unfold _add_points. apply tracked_try_catch; [| intros ?; apply tracked_ret].
  apply tracked_bind; [apply tracked_get_user_stats |].
  intros [us |]; [| apply tracked_ret].
  apply tracked_bind; [apply tracked_update_user_stats |].
  intros ?. apply tracked_ret.
Qed.

Lemma tracked__get_current_points : tracked _get_current_points.
Proof.
  unfold _get_current_points. apply tracked_try_catch; [| intros ?; apply tracked_ret].
  apply tracked_bind; [apply tracked_get_user_stats |].
  intros ?. apply tracked_ret.
Qed.

Lemma tracked_milestones_loop (table : list (Z * milestone_info)) (c : Z) :
  incl table STREAK_MILESTONES -> tracked (milestones_loop table c).
Proof.
  induction table as [| [days info] rest IH]; cbn [milestones_loop]; intros Hincl.
  - apply tracked_ret.
  - destruct (c =? days).
    + apply tracked_bind; [apply tracked__add_points |]. intros ?.
      apply tracked_bind; [| intros ?; apply tracked_ret].
      apply tracked_try_catch; [| intros ?; apply tracked_ret].
      apply tracked_bind; [| intros ?; apply tracked_ret].
      unfold add_streak_milestone.
      eapply tracked_of_effect; [apply transaction_effect |].
      cbn. intros d o d' [[_ ->] | [_ ->]]; [auto |].
      right. apply (write_milestone d days info). apply Hincl. left. reflexivity.
    + apply IH. intros x Hx. apply Hincl. right. exact Hx.
Qed.

Lemma tracked_record_engagement (action : string) (metadata : option pydict)
      (today : date) :
  tracked (record_engagement action metadata today).
Proof.
  unfold record_engagement.
  apply tracked_try_catch; [| intros ?; apply tracked_ret].
  destruct (negb (_is_valid_action action)); [apply tracked_ret |].
  apply tracked_bind.
  { unfold record_daily_engagement.
    eapply tracked_of_effect; [apply transaction_effect |].
    cbn. intros d o d' [[_ ->] | [_ ->]]; [auto |].
    right. apply write_ledger. }
  intros ?. apply tracked_bind.
  { unfold _process_streak_update.
    apply tracked_bind; [apply tracked_get_user_stats |].
    intros [us |]; [| apply tracked_guarded_update].
    destruct (no_last_activity us); [apply tracked_guarded_update |].
    destruct (_ =? 0); [apply tracked_ret |].
    destruct (_ =? 1); apply tracked_guarded_update. }
  intros sr. apply tracked_bind.
  { unfold _calculate_points. apply tracked_bind; [apply tracked__add_points |].
    intros ?. apply tracked_ret. }
  intros pr. apply tracked_bind.
  { unfold _check_milestones. apply tracked_try_catch; [| intros ?; apply tracked_ret].
    apply tracked_milestones_loop, incl_refl. }
  intros mr. apply tracked_bind.
  { unfold _check_level_progression.
    apply tracked_bind; [apply tracked__get_current_points |].
    intros ?. apply tracked_ret. }
  intros lr. unfold _consolidate_results.
  apply tracked_bind; [apply tracked__get_current_points |].
  intros ?. apply tracked_ret.
Qed.

Lemma call_table_writes (c : call) (d : database) :
  table_writes d (db_after c d).
Proof.
  unfold db_after, run_call.
  apply (tracked_record_engagement (c_action c) (c_metadata c) (c_today c) d
           (mk_world d (c_faults c))).
  apply table_writes_none.
Qed.

Lemma table_writes_invariant (P : database -> Prop) :
  (forall d d', P d -> table_write d d' -> P d') ->
  forall d d', table_writes d d' -> P d -> P d'.
Proof.
  intros Hstep d d' Hw Hd. induction Hw as [| d1 d2 _ IH Hs]; [exact Hd |].
  exact (Hstep _ _ IH Hs).
Qed.

Lemma reachable_invariant (P : database -> Prop) :
  P initial_db ->
  (forall d d', P d -> table_write d d' -> P d') ->
  forall d, reachable d -> P d.
Proof.
  intros Hinit Hstep d Hd. induction Hd as [| d c _ IH]; [exact Hinit |].
  exact (table_writes_invariant P Hstep _ _ (call_table_writes c d) IH).
Qed.

(** *** Milestone records *)

Lemma recorded_stays (days m : Z) (ms : list Z) :
  In m ms -> In m (days :: filter (fun x => negb (x =? days)) ms).
Proof.
  intros Hin. destruct (Z.eqb_spec m days) as [-> | Hne]; [left; reflexivity |].
  right. apply filter_In. split; [exact Hin |].
  apply negb_true_iff, Z.eqb_neq, Hne.
Qed.

(** X17. A recorded milestone is never deleted: whatever the store held,
    whatever the call and the faults it meets, every milestone recorded
    before the call is recorded after it. *)
Theorem recorded_milestones_are_kept :
  forall (d : database) (c : call) (m : Z),
    In m (streak_milestones d) -> In m (streak_milestones (db_after c d)).
Proof.
  intros d c m Hin.
  apply (table_writes_invariant (fun d' => In m (streak_milestones d')))
    with (d := d); [| apply call_table_writes | exact Hin].
  intros d1 d2 H1 Hw. destruct Hw; cbn [streak_milestones]; try exact H1.
  apply recorded_stays, H1.
Qed.

Lemma recorded_milestones_are_kept_witness :
  let d := mk_db (Some (mk_row 6 6 200 6 (Some "2024-01-06") false false)) [3] [] in
  let c := mk_call "transaction_added" None (mkdate 2024 1 7) [] in
  In 3 (streak_milestones (db_after c d)).
Proof.
  cbv zeta. apply recorded_milestones_are_kept. left. reflexivity.
Defined.

Lemma milestones_inv_write (d d' : database) :
  milestones_inv d -> table_write d d' -> milestones_inv d'.
Proof.
  intros [Hnd Hall] Hw. destruct Hw as [r | day action | days info Hin];
    unfold milestones_inv; cbn [streak_milestones]; auto.
  split.
  - constructor.
    + intros H. apply filter_In in H. destruct H as [_ H].
      rewrite Z.eqb_refl in H. discriminate.
    + apply NoDup_filter, Hnd.
  - constructor.
    + change [3; 7; 14; 30; 90] with (map fst STREAK_MILESTONES).
      change days with (fst (days, info)). apply in_map, Hin.
    + apply Forall_forall. intros m Hm. apply filter_In in Hm.
      rewrite Forall_forall in Hall. apply Hall, Hm.
Qed.

(** X18. In every store reachable from a new user's, whatever the store
    faults, the recorded milestones are configured day counts (3, 7, 14, 30
    or 90) and none is recorded twice, as the primary key of table
    [streak_milestones] requires. *)
Theorem recorded_milestones_are_configured_and_distinct :
  forall d : database,
    reachable d ->
    NoDup (streak_milestones d) /\
    forall m, In m (streak_milestones d) -> In m [3; 7; 14; 30; 90].
Proof.
  intros d Hd.
  assert (H : milestones_inv d).
  { apply reachable_invariant; [| apply milestones_inv_write | exact Hd].
    split; [constructor | constructor]. }
  destruct H as [Hnd Hall]. split; [exact Hnd |].
  rewrite Forall_forall in Hall. exact Hall.
Qed.

Lemma recorded_milestones_are_configured_and_distinct_witness :
  let c1 := mk_call "transaction_added" None (mkdate 2024 1 1) [] in
  let c2 := mk_call "transaction_added" None (mkdate 2024 1 2) [] in
  let c3 := mk_call "transaction_added" None (mkdate 2024 1 3) [] in
  NoDup (streak_milestones (db_after_calls [c1; c2; c3; c3] initial_db)).
Proof.
  cbv zeta.
  apply (recorded_milestones_are_configured_and_distinct
           (db_after_calls _ initial_db)).
  unfold db_after_calls. cbn [fold_left].
  do 4 apply reachable_call. apply reachable_initial.
Defined.

(** *** The daily ledger *)

Lemma upsert_count_same (day action : string) (rows : list engagement_row) :
  ledger_count day (upsert_engagement day action rows) = ledger_count day rows + 1.
Proof.
  unfold ledger_count.
  induction rows as [| r rows IH]; cbn [upsert_engagement find].
  - cbn. rewrite String.eqb_refl. reflexivity.
  - destruct (String.eqb (activity_date r) day) eqn:E; cbn [find activity_date].
    + rewrite String.eqb_refl. reflexivity.
    + rewrite E. exact IH.
Qed.

Lemma upsert_count_other (day other action : string) (rows : list engagement_row) :
  other <> day ->
  ledger_count other (upsert_engagement day action rows) = ledger_count other rows.
Proof.
  intros Hne. unfold ledger_count.
  assert (Hd : String.eqb day other = false) by (apply String.eqb_neq; congruence).
  induction rows as [| r rows IH]; cbn [upsert_engagement find].
  - cbn. rewrite Hd. reflexivity.
  - destruct (String.eqb (activity_date r) day) eqn:E; cbn [find activity_date].
    + apply String.eqb_eq in E. rewrite E, Hd. reflexivity.
    + destruct (String.eqb (activity_date r) other); [reflexivity | exact IH].
Qed.

Lemma upsert_dates (day action : string) (rows : list engagement_row) :
  map activity_date (upsert_engagement day action rows) =
  if existsb (fun r => String.eqb (activity_date r) day) rows
  then map activity_date rows
  else (map activity_date rows ++ [day])%list.
Proof.
  induction rows as [| r rows IH]; cbn [upsert_engagement existsb map app].
  - reflexivity.
  - destruct (String.eqb (activity_date r) day) eqn:E; cbn [orb map activity_date].
    + apply String.eqb_eq in E. rewrite E. reflexivity.
    + rewrite IH. destruct (existsb _ rows); reflexivity.
Qed.

Lemma ledger_inv_upsert (day action : string) (rows : list engagement_row) :
  NoDup (map activity_date rows) ->
  Forall (fun r => 1 <= actions_count r) rows ->
  NoDup (map activity_date (upsert_engagement day action rows)) /\
  Forall (fun r => 1 <= actions_count r) (upsert_engagement day action rows).
Proof.
  intros Hnd Hall. split.
  - rewrite upsert_dates.
    destruct (existsb (fun r => String.eqb (activity_date r) day) rows) eqn:E;
      [exact Hnd |].
    apply NoDup_app; [exact Hnd | repeat constructor; intros [] |].
    intros x Hx [Ex | []]. subst x.
    apply in_map_iff in Hx. destruct Hx as (r & Hr & Hin).
    assert (Hex : existsb (fun r => String.eqb (activity_date r) day) rows = true).
    { apply existsb_exists. exists r. split; [exact Hin |].
      apply String.eqb_eq, Hr. }
    congruence.
  - clear Hnd. induction Hall as [| r rows Hr Hrest IH]; cbn [upsert_engagement].
    + repeat constructor. cbn. lia.
    + destruct (String.eqb (activity_date r) day).
      * constructor; [cbn; lia | exact Hrest].
      * constructor; [exact Hr | exact IH].
Qed.

(** X19. In every store reachable from a new user's, whatever the store
    faults, the daily ledger holds at most one row per date and every row
    counts at least one action, as the primary key and the default of table
    [daily_engagement] require. *)
Theorem ledger_has_one_row_per_day :
  forall d : database,
    reachable d ->
    NoDup (map activity_date (daily_engagement d)) /\
    forall r, In r (daily_engagement d) -> 1 <= actions_count r.
Proof.
  intros d Hd.
  assert (H : ledger_inv d).
  { apply reachable_invariant; [| | exact Hd].
    - split; constructor.
    - intros d1 d2 [Hnd Hall] Hw.
      destruct Hw as [r | day action | days info Hin];
        unfold ledger_inv; cbn [daily_engagement]; auto.
      apply ledger_inv_upsert; assumption. }
  destruct H as [Hnd Hall]. split; [exact Hnd |].
  rewrite Forall_forall in Hall. exact Hall.
Qed.

Lemma ledger_has_one_row_per_day_witness :
  let c1 := mk_call "transaction_added" None (mkdate 2024 1 1) [] in
  let c2 := mk_call "goal_checked" None (mkdate 2024 1 1) [] in
  NoDup (map activity_date (daily_engagement (db_after_calls [c1; c2] initial_db))).
Proof.
  cbv zeta.
  apply (ledger_has_one_row_per_day (db_after_calls _ initial_db)).
  unfold db_after_calls. cbn [fold_left].
  do 2 apply reachable_call. apply reachable_initial.
Defined.

(** X20. A call with a valid action that meets no store fault counts one
    more action for its day in the daily ledger and leaves the count of
    every other day. *)
Theorem ledger_counts_the_call :
  forall (d : database) (us : user_stats_row) (c : call),
    user_stats d = Some us ->
    _is_valid_action (c_action c) = true ->
    c_faults c = [] ->
    ledger_count (isoformat (c_today c)) (daily_engagement (db_after c d))
    = ledger_count (isoformat (c_today c)) (daily_engagement d) + 1 /\
    forall other,
      other <> isoformat (c_today c) ->
      ledger_count other (daily_engagement (db_after c d))
      = ledger_count other (daily_engagement d).
Proof.
  intros d us c Hus Hv Hf.
  destruct (fault_free_call_run d us c Hus Hv Hf)
    as (mr & lr & d' & Hrun & _ & _ & _ & Hled).
  unfold db_after. rewrite Hrun. cbn [snd db]. rewrite Hled. split.
  - apply upsert_count_same.
  - intros other Hne. apply upsert_count_other, Hne.
Qed.

Lemma ledger_counts_the_call_witness :
  let c1 := mk_call "transaction_added" None (mkdate 2024 1 1) [] in
  let c2 := mk_call "goal_checked" None (mkdate 2024 1 1) [] in
  ledger_count "2024-01-01" (daily_engagement (db_after c2 (db_after c1 initial_db)))
  = ledger_count "2024-01-01" (daily_engagement (db_after c1 initial_db)) + 1.
Proof.
  cbv zeta.
  apply (ledger_counts_the_call
           (db_after (mk_call "transaction_added" None (mkdate 2024 1 1) []) initial_db)
           (mk_row 1 1 20 1 (Some "2024-01-01") false false)
           (mk_call "goal_checked" None (mkdate 2024 1 1) [])).
  - vm_compute. reflexivity.
  - reflexivity.
  - reflexivity.
Defined.

(* ================================================================== *)
(** ** The progress snapshot *)
(* ================================================================== *)


(* ================================================================== *)
(** ** Suggested categories *)
(* ================================================================== *)

Lemma fromkeys_spec (seen l : list string) :
  NoDup (fromkeys seen l) /\
  forall x, In x (fromkeys seen l) <-> In x l /\ ~ In x seen.
Proof.
  revert seen. induction l as [| y rest IH]; intros seen; cbn [fromkeys].
  - split; [constructor |]. intros x. cbn. tauto.
  - destruct (existsb (String.eqb y) seen) eqn:E.
    + destruct (IH seen) as [Hnd Hin]. split; [exact Hnd |].
      intros x. rewrite Hin. cbn [In].
      apply existsb_exists in E. destruct E as (z & Hz & Hyz).
      apply String.eqb_eq in Hyz. subst z.
      split; [tauto |]. intros [[<- | H] Hn]; [contradiction | tauto].
    + destruct (IH (y :: seen)) as [Hnd Hin].
      assert (Hy : ~ In y seen).
      { intros Hy. assert (existsb (String.eqb y) seen = true); [| congruence].
        apply existsb_exists. exists y. split; [exact Hy | apply String.eqb_refl]. }
      split.
      * constructor; [| exact Hnd]. intros H. apply Hin in H. cbn in H. tauto.
      * intros x. cbn [In]. rewrite Hin. cbn [In].
        destruct (string_dec y x) as [<- | Hne]; tauto.
Qed.

Lemma fromkeys_app (seen a b : list string) :
  fromkeys seen (a ++ b) = (fromkeys seen a ++ fromkeys (rev a ++ seen) b)%list.
Proof.
  revert seen. induction a as [| x a IH]; intros seen; cbn [fromkeys app rev].
  - reflexivity.
  - destruct (existsb (String.eqb x) seen) eqn:E.
    + rewrite IH. f_equal.
      (* [x] is already seen: adding it again changes no membership test *)
      clear IH. revert seen E. generalize (rev a) as p.
      intros p seen E. revert p.
      assert (Hmem : forall p y,
                 existsb (String.eqb y) ((p ++ [x]) ++ seen)
                 = existsb (String.eqb y) (p ++ seen)).
      { intros p y. rewrite !existsb_app. cbn [existsb].
        destruct (String.eqb y x) eqn:Eyx; [| rewrite orb_false_r; reflexivity].
        apply String.eqb_eq in Eyx. subst y. rewrite E, !orb_true_r. reflexivity. }
      intros p. revert p. induction b as [| y b IHb]; intros p; cbn [fromkeys];
        [reflexivity |].
      rewrite Hmem. destruct (existsb (String.eqb y) (p ++ seen)).
      * apply IHb.
      * f_equal. apply (IHb (y :: p)).
    + rewrite IH. cbn [app]. f_equal. f_equal. rewrite <- app_assoc. reflexivity.
Qed.

(** X22. The suggested categories hold no category twice and at most 15
    categories, each one of the user's own or a default one; the user's own
    categories come first, in their order: the suggestions begin with the
    first 15 of them. *)
Theorem suggested_categories_are_distinct_and_bounded :
  forall user_categories : list string,
    let suggested := get_suggested_categories user_categories in
    NoDup suggested /\
    (List.length suggested <= 15)%nat /\
    (forall x, In x suggested ->
               In x user_categories \/ In x DEFAULT_CATEGORIES) /\
    firstn (List.length (firstn 15 (fromkeys [] user_categories))) suggested
    = firstn 15 (fromkeys [] user_categories).
Proof.
  intros user_categories suggested. subst suggested.
  unfold get_suggested_categories. cbv zeta.
  destruct (fromkeys_spec [] (user_categories ++ DEFAULT_CATEGORIES))
    as [Hnd Hin].
  split; [| split; [| split]].
  - rewrite <- (firstn_skipn 15) in Hnd. apply NoDup_app_remove_r in Hnd. exact Hnd.
  - apply firstn_le_length.
  - intros x Hx.
    assert (Hx' : In x (fromkeys [] (user_categories ++ DEFAULT_CATEGORIES)))
      by (rewrite <- (firstn_skipn 15); apply in_or_app; left; exact Hx).
    clear Hx. rename Hx' into Hx. apply Hin in Hx.
    destruct Hx as [Hx _]. apply in_app_or, Hx.
  - rewrite fromkeys_app.
    set (own := fromkeys [] user_categories).
    set (rest := fromkeys _ DEFAULT_CATEGORIES).
    rewrite firstn_firstn, firstn_app, length_firstn.
    replace (Nat.min (Nat.min 15 (List.length own)) 15 - List.length own)%nat
      with 0%nat by lia.
    rewrite firstn_0, app_nil_r.
    destruct (Nat.le_ge_cases (List.length own) 15) as [Hle | Hge].
    + rewrite (firstn_all2 own Hle). apply firstn_all2. lia.
    + f_equal. lia.
Qed.

(* ================================================================== *)
(** ** When a level-up is signalled *)
(* ================================================================== *)

